(** * BioScout Islamabad: the helper functions of [bioscout_app.py]

    A shallow embedding of the observation store, the knowledge-base loader,
    the species-identification stub, the keyword retrieval and the answer
    rendering of [src/bioscout_app.py], followed by the properties that the
    specification states about them.

    Conventions.
    - A Python [str] is a [string], the bytes of its UTF-8 encoding.
      [Py.lower] is [str.lower] on ASCII text: it folds the letters A-Z and
      leaves every other byte.  [simple_rag_query] is written with it; the
      module [Utf8] has the same function with [str.lower] as an argument,
      for text in any script.
    - A cell of a pandas [DataFrame] is a [pyval].  A float is kept as the
      text of its [repr]; how a literal of the file is rounded and printed
      is the parameter [float_repr] of [read_csv] and of what calls it.
    - The observation table always has the eight columns that
      [load_observations] writes in the header: a row is a [row], the table
      the list of its rows.  [iterrows] is taken to yield the rows with the
      values of the table, which it does for a table that holds a [str]
      ([keeps_types]).
    - [observations.csv] is held as the texts of its fields, line by line,
      under the eight-column header; a file that is not such a table (an
      empty file, a line with more fields than the header, another header)
      is not represented.  The quoting of commas, quotes and line feeds by
      [to_csv] and its removal by [read_csv] are not modelled: they are
      inverse on texts without a carriage return ([clean]), which the
      properties about a written file assume.
    - Code that can raise returns a [result]; code that reads or writes
      files threads a [world], the part of the working directory the
      program touches ([data], [data/observations.csv],
      [data/kb_snippets]).  A file that may not be written and a full disk
      are not represented.
    - The three handlers of the page (submitting the form, listing the
      observations, asking a question) return the list of what they show,
      a [widget] per call to streamlit; the handler of the form threads a
      [disk], a [world] with what is at [data/images], and takes the
      UUIDs it draws as arguments. *)

From Stdlib Require Import String Ascii List ZArith Bool Lia DecimalString.
Import ListNotations.
Open Scope list_scope.
Open Scope string_scope.

(** ** Python strings *)

Module Py.

(** One character of [str.lower()] on ASCII text. *)
Definition lower_char (c : ascii) : ascii :=
  let n := nat_of_ascii c in
  if (65 <=? n)%nat && (n <=? 90)%nat then ascii_of_nat (n + 32) else c.

(** [s.lower()] on ASCII text *)
Fixpoint lower (s : string) : string :=
  match s with
  | EmptyString => EmptyString
  | String c s' => String (lower_char c) (lower s')
  end.

(** [s.startswith(p)] *)
Fixpoint startswith (p s : string) : bool :=
  match p, s with
  | EmptyString, _ => true
  | String _ _, EmptyString => false
  | String a p', String b s' => Ascii.eqb a b && startswith p' s'
  end.

(** [s.endswith(p)] *)
Definition endswith (p s : string) : bool :=
  let n := String.length s - String.length p in
  (String.length p <=? String.length s)%nat
  && String.eqb (substring n (String.length p) s) p.

(** [q in s] for two strings: [q] occurs in [s] at some offset. *)
Fixpoint contains (q s : string) : bool :=
  startswith q s
  || match s with
     | EmptyString => false
     | String _ s' => contains q s'
     end.

(** [s.split('\n')[0]]: the text before the first line feed. *)
Fixpoint first_line (s : string) : string :=
  match s with
  | EmptyString => EmptyString
  | String c s' =>
      if Ascii.eqb c "010"%char then EmptyString else String c (first_line s')
  end.

(** [sep.join(xs)] *)
Fixpoint join (sep : string) (xs : list string) : string :=
  match xs with
  | [] => EmptyString
  | [x] => x
  | x :: rest => x ++ sep ++ join sep rest
  end.

(** [s.strip()] restricted to the blanks the number parsers skip. *)
Definition is_blank (c : ascii) : bool :=
  let n := nat_of_ascii c in
  (n =? 32)%nat || ((9 <=? n)%nat && (n <=? 13)%nat).

Fixpoint lstrip (s : string) : string :=
  match s with
  | EmptyString => EmptyString
  | String c s' => if is_blank c then lstrip s' else s
  end.

Fixpoint rstrip (s : string) : string :=
  match s with
  | EmptyString => EmptyString
  | String c s' =>
      match rstrip s' with
      | EmptyString => if is_blank c then EmptyString else String c EmptyString
      | t => String c t
      end
  end.

Definition strip (s : string) : string := rstrip (lstrip s).

End Py.

(** ** Python values and errors *)

(** The values a cell of the observation table can hold once pandas has read
    it: [nan], an [int], a [float] (kept as its [repr] text), a [bool] or a
    [str]. *)
Inductive pyval : Type :=
| PyNaN
| PyInt (z : Z)
| PyFloat (repr : string)
| PyBool (b : bool)
| PyStr (s : string).

Definition pyval_eq_dec (a b : pyval) : {a = b} + {a <> b}.
Proof.
  decide equality;
    try apply string_dec; try apply Z.eq_dec; try apply Bool.bool_dec.
Defined.

Definition Z_to_string (z : Z) : string := NilZero.string_of_int (Z.to_int z).

(** [str(v)], also what an f-string field [{v}] renders. *)
Definition py_str (v : pyval) : string :=
  match v with
  | PyNaN => "nan"
  | PyInt z => Z_to_string z
  | PyFloat r => r
  | PyBool true => "True"
  | PyBool false => "False"
  | PyStr s => s
  end.

(** The exceptions the helper functions can let escape. *)
Inductive exn : Type :=
| OSError              (* [to_csv] into a directory that does not exist *)
| FileNotFoundError    (* [read_csv] of a file that does not exist *)
| IsADirectoryError    (* [open] on a directory *)
| NotADirectoryError   (* [mkdir] under a regular file *)
| FileExistsError      (* [makedirs] where a regular file is *)
| UnicodeDecodeError   (* [read] of a file that is not UTF-8 *)
| PermissionError      (* [open] of a file that may not be read *)
| ValueError.          (* [idxmax] of an empty [Series] *)

Inductive result (A : Type) : Type :=
| Ok (a : A)
| Raise (e : exn).
Arguments Ok {A} a.
Arguments Raise {A} e.

(** ** The observation table *)

(** One row of the table, with the eight columns of the CSV header. *)
Record row (A : Type) : Type := Row {
  observation_id : A;
  species_name : A;
  common_name : A;
  date_observed : A;
  location : A;
  image_url : A;
  notes : A;
  submitted_by : A
}.
Arguments Row {A}.
Arguments observation_id {A} r.
Arguments species_name {A} r.
Arguments common_name {A} r.
Arguments date_observed {A} r.
Arguments location {A} r.
Arguments image_url {A} r.
Arguments notes {A} r.
Arguments submitted_by {A} r.

(** The header written by [load_observations] (lines 19-22). *)
Definition COLUMNS : list string :=
  ["observation_id"; "species_name"; "common_name"; "date_observed";
   "location"; "image_url"; "notes"; "submitted_by"].

Definition fields {A} (r : row A) : list A :=
  [observation_id r; species_name r; common_name r; date_observed r;
   location r; image_url r; notes r; submitted_by r].

Definition row_map {A B} (f : A -> B) (r : row A) : row B :=
  Row (f (observation_id r)) (f (species_name r)) (f (common_name r))
      (f (date_observed r)) (f (location r)) (f (image_url r))
      (f (notes r)) (f (submitted_by r)).

(** The dict built by the submission form: every value is a [str]. *)
Definition record := row string.
(** A [DataFrame] with the eight columns: its rows in index order. *)
Definition dataframe := list (row pyval).
(** The body of [observations.csv], a table under the eight-column header:
    the field texts of each line.  The quoting that [to_csv] adds and
    [read_csv] removes is not represented. *)
Definition csv := list (row string).

(** ** The fragment of pandas the program uses *)

Module Pandas.

(** The texts [read_csv] takes for a missing value (its default
    [na_values], with [keep_default_na=True]). *)
Definition NA_VALUES : list string :=
  [""; "#N/A"; "#N/A N/A"; "#NA"; "-1.#IND"; "-1.#QNAN"; "-NaN"; "-nan";
   "1.#IND"; "1.#QNAN"; "<NA>"; "N/A"; "NA"; "NULL"; "NaN"; "None"; "n/a";
   "nan"; "null"].

Definition is_na (tok : string) : bool :=
  existsb (String.eqb tok) NA_VALUES.

Definition digit_of (c : ascii) : option Z :=
  let n := nat_of_ascii c in
  if (48 <=? n)%nat && (n <=? 57)%nat then Some (Z.of_nat (n - 48)) else None.

Fixpoint digits_value (acc : Z) (s : string) : option Z :=
  match s with
  | EmptyString => Some acc
  | String c s' =>
      match digit_of c with
      | Some d => digits_value (10 * acc + d) s'
      | None => None
      end
  end.

Definition unsigned_literal (s : string) : option Z :=
  match s with
  | EmptyString => None
  | _ => digits_value 0 s
  end.

(** An integer literal: blanks, an optional sign, digits, blanks. *)
Definition int_literal (tok : string) : option Z :=
  match Py.strip tok with
  | String "-"%char ds => option_map Z.opp (unsigned_literal ds)
  | String "+"%char ds => unsigned_literal ds
  | ds => unsigned_literal ds
  end.

Definition in_int64 (z : Z) : bool :=
  (- 2 ^ 63 <=? z)%Z && (z <? 2 ^ 63)%Z.
Fixpoint skip_digits (s : string) : nat * string :=
  match s with
  | EmptyString => (0, EmptyString)
  | String c s' =>
      match digit_of c with
      | Some _ => let '(n, r) := skip_digits s' in (S n, r)
      | None => (0, s)
      end
  end.

Definition drop_sign (s : string) : string :=
  match s with
  | String "-"%char r => r
  | String "+"%char r => r
  | _ => s
  end.

(** The digits of a float literal: digits with an optional fraction and an
    optional exponent. *)
Definition float_digits (body : string) : bool :=
  let '(n1, r1) := skip_digits body in
  let '(n2, r2) :=
    match r1 with
    | String "."%char r => skip_digits r
    | _ => (0, r1)
    end in
  (0 <? n1 + n2)%nat
  && match r2 with
     | EmptyString => true
     | String c r =>
         (Ascii.eqb c "e"%char || Ascii.eqb c "E"%char)
         && let '(n3, r3) := skip_digits (drop_sign r) in
            (0 <? n3)%nat && String.eqb r3 EmptyString
     end.

(** A float literal: an optional sign and [inf] or [infinity] in any case,
    or blanks, an optional sign, the digits, blanks. *)
Definition float_literal (tok : string) : bool :=
  let word := Py.lower (drop_sign tok) in
  String.eqb word "inf" || String.eqb word "infinity"
  || float_digits (drop_sign (Py.strip tok)).

(** A boolean word: "true" or "false" in any mix of upper and lower
    case. *)
Definition bool_literal (tok : string) : option bool :=
  if String.eqb (Py.lower tok) "true" then Some true
  else if String.eqb (Py.lower tok) "false" then Some false
  else None.

Definition is_some {A} (o : option A) : bool :=
  match o with Some _ => true | None => false end.

Definition int_in (range : Z -> bool) (tok : string) : bool :=
  match int_literal tok with Some z => range z | None => false end.

(** How the cells of one column are converted, decided on the whole column. *)
Inductive conversion : Type :=
| AsInt      (* int64 or uint64 *)
| AsFloat    (* float64 *)
| AsBool     (* bool, or object holding bools and nan *)
| AsText     (* object holding str and nan *)
| AsVerbatim. (* object holding every field as its text *)

(** The order in which [read_csv] tries the dtypes of a column: int64,
    float64, bool, object.  A missing value turns a column of integers into
    a float column.  When an integer of the column is outside int64, the
    integers stay integers if no value is missing, and otherwise every
    field of the column is kept as its text, the markers of a missing value
    included. *)
Definition infer (toks : list string) : conversion :=
  if forallb (fun t => is_na t || is_some (int_literal t)) toks then
    if forallb (fun t => is_na t || int_in in_int64 t) toks then
      if existsb is_na toks then AsFloat else AsInt
    else if existsb is_na toks then AsVerbatim
    else AsInt
  else if forallb (fun t => is_na t || float_literal t) toks then AsFloat
  else if forallb (fun t => is_na t || is_some (bool_literal t)) toks
  then AsBool
  else AsText.

Section Inference.

(** [float_repr lit] is [repr(float(lit))] for a float literal [lit]: the
    rounding to a binary64 and its shortest printing are left open. *)
Variable float_repr : string -> string.

Definition convert (k : conversion) (tok : string) : pyval :=
  match k with
  | AsVerbatim => PyStr tok
  | AsInt =>
      if is_na tok then PyNaN
      else match int_literal tok with Some z => PyInt z | None => PyStr tok end
  | AsFloat => if is_na tok then PyNaN else PyFloat (float_repr tok)
  | AsBool =>
      if is_na tok then PyNaN
      else match bool_literal tok with
           | Some b => PyBool b
           | None => PyStr tok
           end
  | AsText => if is_na tok then PyNaN else PyStr tok
  end.

(** [pd.read_csv] on a file with the eight-column header. *)
Definition read_csv (body : csv) : dataframe :=
  let k (col : row string -> string) := infer (map col body) in
  map (fun r =>
         Row (convert (k observation_id) (observation_id r))
             (convert (k species_name) (species_name r))
             (convert (k common_name) (common_name r))
             (convert (k date_observed) (date_observed r))
             (convert (k location) (location r))
             (convert (k image_url) (image_url r))
             (convert (k notes) (notes r))
             (convert (k submitted_by) (submitted_by r)))
      body.

End Inference.

(** The text [to_csv] writes for a cell ([na_rep] is the empty text). *)
Definition cell_text (v : pyval) : string :=
  match v with
  | PyNaN => ""
  | _ => py_str v
  end.

(** [df.to_csv(path, index=False)]: the lines under the header. *)
Definition to_csv (df : dataframe) : csv := map (row_map cell_text) df.

(** [pd.DataFrame([row])] for the dict of the form. *)
Definition DataFrame1 (r : record) : dataframe := [row_map PyStr r].

(** [pd.concat([a, b], ignore_index=True)] *)
Definition concat (a b : dataframe) : dataframe := (a ++ b)%list.

(** [a == b] on the values of one column (a column read from the file
    never mixes an [int] with a [float] or a [bool]). *)
Definition same (a b : pyval) : bool :=
  if pyval_eq_dec a b then true else false.

Fixpoint unique (l : list pyval) : list pyval :=
  match l with
  | [] => []
  | x :: t => x :: filter (fun y => negb (same x y)) (unique t)
  end.

Fixpoint insert_desc (x : pyval * nat) (l : list (pyval * nat)) :
  list (pyval * nat) :=
  match l with
  | [] => [x]
  | y :: l' => if (snd y <=? snd x)%nat then x :: l else y :: insert_desc x l'
  end.

(** [series.value_counts()]: the distinct values other than nan with their
    counts, most frequent first; equal counts stay in order of first
    appearance. *)
Definition value_counts (series : list pyval) : list (pyval * nat) :=
  let present := filter (fun v => negb (same v PyNaN)) series in
  fold_right insert_desc []
    (map (fun v => (v, count_occ pyval_eq_dec present v)) (unique present)).

(** [series.idxmax()]: the label of the first largest entry. *)
Fixpoint idxmax (counts : list (pyval * nat)) : result pyval :=
  match counts with
  | [] => Raise ValueError
  | (v, n) :: rest =>
      if forallb (fun e => (snd e <=? n)%nat) rest then Ok v else idxmax rest
  end.

End Pandas.

(** ** The files the program touches *)

(** An entry of the knowledge-base directory: a file that [open] and
    [read] return the text of, a directory, or an entry that [open] or
    [read] raise [e] on (a file that is not UTF-8, a broken link, a file
    that may not be read). *)
Inductive node : Type :=
| File (text : string)
| Directory
| Unreadable (e : exn).

(** The directory [data]: [observations.csv] when it exists, and the
    listing of [kb_snippets] (in the order the system enumerates it) when
    that directory exists. *)
Record data_dir : Type := DataDir {
  observations_csv : option csv;
  kb_snippets : option (list (string * node))
}.

(** The working directory: [None] when it has no [data] directory. *)
Definition world := option data_dir.

(** Code that reads and writes files: it may raise, and otherwise returns a
    value and the files as it leaves them. *)
Definition io (A : Type) : Type := world -> result (A * world).

Definition ret {A} (a : A) : io A := fun w => Ok (a, w).

Definition bind {A B} (m : io A) (k : A -> io B) : io B :=
  fun w =>
    match m w with
    | Ok (a, w') => k a w'
    | Raise e => Raise e
    end.

Notation "x <- m ;; k" := (bind m (fun x => k))
  (at level 61, m at next level, right associativity).

(** [os.path.exists(OBS_CSV_PATH)] *)
Definition obs_csv_exists : io bool :=
  fun w =>
    match w with
    | Some d =>
        match observations_csv d with
        | Some _ => Ok (true, w)
        | None => Ok (false, w)
        end
    | None => Ok (false, w)
    end.

(** [df.to_csv(OBS_CSV_PATH, index=False)]: replaces the file; raises when
    the directory [data] does not exist. *)
Definition write_obs_csv (df : dataframe) : io unit :=
  fun w =>
    match w with
    | Some d =>
        Ok (tt, Some (DataDir (Some (Pandas.to_csv df)) (kb_snippets d)))
    | None => Raise OSError
    end.

(** What [glob.glob(KB_DIR + "/*.txt")] matches: the entries whose name ends
    in [.txt] and does not start with a dot; nothing when the directory is
    missing. *)
Definition matches_txt (name : string) : bool :=
  negb (Py.startswith "." name) && Py.endswith ".txt" name.

Definition glob_kb_txt (w : world) : list (string * node) :=
  match w with
  | Some d =>
      match kb_snippets d with
      | Some entries => filter (fun e => matches_txt (fst e)) entries
      | None => []
      end
  | None => []
  end.

(** [open(fname).read()] *)
Definition read_text (n : node) : result string :=
  match n with
  | File text => Ok text
  | Directory => Raise IsADirectoryError
  | Unreadable e => Raise e
  end.

(** ** The helper functions of the program *)

Section App.

Variable float_repr : string -> string.

(** [pd.read_csv(OBS_CSV_PATH)] *)
Definition read_obs_csv : io dataframe :=
  fun w =>
    match w with
    | Some d =>
        match observations_csv d with
        | Some body => Ok (Pandas.read_csv float_repr body, w)
        | None => Raise FileNotFoundError
        end
    | None => Raise FileNotFoundError
    end.

(** Lines 16-24. *)
Definition load_observations : io dataframe :=
  present <- obs_csv_exists ;;
  _ <- (if negb present then write_obs_csv [] else ret tt) ;;
  read_obs_csv.

(** Lines 26-29. *)
Definition save_observation (r : record) : io unit :=
  df <- load_observations ;;
  write_obs_csv (Pandas.concat df (Pandas.DataFrame1 r)).

End App.

(** Lines 31-36: the loop appends the text of each matched file. *)
Definition get_kb_snippets (w : world) : result (list string) :=
  fold_left
    (fun acc e =>
       match acc with
       | Ok snippets =>
           match read_text (snd e) with
           | Ok text => Ok (snippets ++ [text])%list
           | Raise x => Raise x
           end
       | Raise x => Raise x
       end)
    (glob_kb_txt w) (Ok []).

(** One suggestion of the species identifier. *)
Record suggestion : Type := Suggestion {
  species : string;
  confidence : string
}.

(** Lines 38-45; [image_file] is the upload, or [None]. *)
Definition ai_species_id (image_file : option string) : list suggestion :=
  [ Suggestion "Parus major (Great Tit)" "High";
    Suggestion "Panthera pardus (Leopard)" "Medium";
    Suggestion "Psittacula krameri (Rose-ringed Parakeet)" "Low" ].

(** The condition of lines 53-58 for one row. *)
Definition row_matches (query_lower : string) (r : row pyval) : bool :=
  Py.contains query_lower (Py.lower (py_str (species_name r)))
  || Py.contains query_lower (Py.lower (py_str (common_name r)))
  || Py.contains query_lower (Py.lower (py_str (notes r)))
  || Py.contains query_lower (Py.lower (py_str (location r))).

(** Lines 47-60. *)
Definition simple_rag_query (query : string) (obs_df : dataframe)
    (kb_snippets : list string) : list string * list (row pyval) :=
  let query_lower := Py.lower query in
  let kb_hits :=
    filter (fun s => Py.contains query_lower (Py.lower s)) kb_snippets in
  let obs_hits :=
    fold_left
      (fun hits r =>
         if row_matches query_lower r then (hits ++ [r])%list else hits)
      obs_df [] in
  (kb_hits, obs_hits).

(** Lines 47-60 on text in any script.  A [str] is held as its UTF-8
    bytes, on which [q in s] is [Py.contains] as well (a text occurs in
    another as a sequence of characters exactly when its bytes occur in the
    bytes of the other); [str.lower] is the argument [lower], since how it
    folds a letter outside ASCII depends on the letter and on the letters
    around it.  With [Py.lower] for it these are the two functions above. *)
Module Utf8.

Section Lower.

Variable lower : string -> string.

Definition row_matches (query_lower : string) (r : row pyval) : bool :=
  Py.contains query_lower (lower (py_str (species_name r)))
  || Py.contains query_lower (lower (py_str (common_name r)))
  || Py.contains query_lower (lower (py_str (notes r)))
  || Py.contains query_lower (lower (py_str (location r))).

Definition simple_rag_query (query : string) (obs_df : dataframe)
    (kb_snippets : list string) : list string * list (row pyval) :=
  let query_lower := lower query in
  let kb_hits :=
    filter (fun s => Py.contains query_lower (lower s)) kb_snippets in
  let obs_hits :=
    fold_left
      (fun hits r =>
         if row_matches query_lower r then (hits ++ [r])%list else hits)
      obs_df [] in
  (kb_hits, obs_hits).

End Lower.

End Utf8.

(** Lines 62-65. *)
Definition get_top_observer (obs_df : dataframe) : result pyval :=
  match obs_df with
  | [] => Ok (PyStr "N/A")
  | _ => Pandas.idxmax (Pandas.value_counts (map submitted_by obs_df))
  end.

(** The two texts of the answer box (lines 181 and 191). *)
Definition LF : string := String "010"%char EmptyString.

Definition FOUND_HEADER : string :=
  "Based on available data, here's what we found:" ++ LF ++ LF.

Definition NOT_FOUND : string :=
  "Sorry, I could not find relevant information. Try using different keywords or submit new observations!".

Definition kb_line (hit : string) : string := "• " ++ Py.first_line hit.

Definition obs_line (r : row pyval) : string :=
  "• " ++ py_str (species_name r) ++ " observed at " ++ py_str (location r)
  ++ " (" ++ py_str (date_observed r) ++ ")".

Definition non_empty {A} (l : list A) : bool :=
  match l with [] => false | _ => true end.

(** Lines 179-192: the text shown as the answer. *)
Definition ai_answer (kb_hits : list string) (obs_hits : list (row pyval)) :
  string :=
  if non_empty kb_hits || non_empty obs_hits then
    FOUND_HEADER
    ++ Py.join LF (map kb_line kb_hits)
    ++ (if non_empty kb_hits then LF else "")
    ++ Py.join LF (map obs_line obs_hits)
  else NOT_FOUND.

(** ** The page: what it shows *)

(** A call to streamlit that shows something; a page is the list of its
    calls in order. *)
Inductive widget : Type :=
| Markdown (text : string)
| Info (text : string)
| Write (text : string)
| Success (text : string)
| Dataframe (rows : list (list pyval)).

(** A computation that only reads the files, and one that touches none. *)
Definition reading {A} (f : world -> result A) : io A :=
  fun w =>
    match f w with
    | Ok a => Ok (a, w)
    | Raise e => Raise e
    end.

Definition returning {A} (r : result A) : io A := reading (fun _ => r).

Definition KB_TITLE : string := "##### 🔍 *Relevant Info from Knowledge Base:*".
Definition KB_NO_MATCH : string :=
  "No direct match found in the knowledge base.".
Definition OBS_TITLE : string := "##### 🔍 *Relevant Community Observations:*".
Definition OBS_NO_MATCH : string := "No matching observations found.".
Definition ANSWER_TITLE : string := "##### 🤖 *AI Answer:*".
Definition QA_NOTE : string :=
  "This Q&A uses simple keyword search for retrieval and a simulated answer. For advanced RAG, integrate with free LLM APIs and use embeddings for semantic search.".
Definition NO_OBSERVATIONS : string :=
  "No observations yet. Submit the first one!".

(** Line 172: one matching observation. *)
Definition obs_hit_line (r : row pyval) : string :=
  "- " ++ py_str (species_name r) ++ " (" ++ py_str (common_name r)
  ++ ") @ " ++ py_str (location r) ++ " on " ++ py_str (date_observed r)
  ++ " — " ++ py_str (notes r).

(** Line 144: the six columns of the table shown. *)
Definition shown_columns (r : row pyval) : list pyval :=
  [species_name r; common_name r; date_observed r; location r; notes r;
   submitted_by r].

Section Pages.

Variable float_repr : string -> string.

(** Lines 156-197: what pressing "Ask AI" does with the text of the
    question.  Nothing is shown before the three calls of lines 157-159
    have returned. *)
Definition ask_ai (query : string) : io (list widget) :=
  obs_df <- load_observations float_repr ;;
  kb_snippets <- reading get_kb_snippets ;;
  let hits := simple_rag_query query obs_df kb_snippets in
  let kb_hits := fst hits in
  let obs_hits := snd hits in
  ret ([Markdown KB_TITLE]
       ++ (if non_empty kb_hits then map Info kb_hits
           else [Info KB_NO_MATCH])
       ++ [Markdown OBS_TITLE]
       ++ (if non_empty obs_hits
           then map (fun r => Write (obs_hit_line r)) obs_hits
           else [Info OBS_NO_MATCH])
       ++ [Markdown ANSWER_TITLE]
       ++ [if non_empty kb_hits || non_empty obs_hits
           then Success (ai_answer kb_hits obs_hits)
           else Write (ai_answer kb_hits obs_hits)]
       ++ [Info QA_NOTE])%list.

(** Lines 137-144: the list of observations under the form. *)
Definition show_observations : io (list widget) :=
  obs_df <- load_observations float_repr ;;
  if non_empty obs_df then
    top_observer <- returning (get_top_observer obs_df) ;;
    ret [Markdown ("🏆 *Top Observer:* " ++ py_str top_observer);
         Dataframe (map shown_columns obs_df)]
  else ret [Info NO_OBSERVATIONS].

End Pages.

(** ** The page: submitting an observation *)

(** A UUID, as its 128-bit number. *)
Definition uuid := N.

Definition hex_char (n : N) : ascii :=
  nth (N.to_nat (n mod 16)) (list_ascii_of_string "0123456789abcdef")
      "0"%char.

(** The last [digits] hexadecimal digits of [n]. *)
Fixpoint hex (digits : nat) (n : N) : string :=
  match digits with
  | O => EmptyString
  | S k => hex k (n / 16) ++ String (hex_char n) EmptyString
  end.

(** [str(u)] for a UUID: 32 hexadecimal digits in groups of 8, 4, 4, 4 and
    12. *)
Definition uuid_str (u : uuid) : string :=
  hex 8 (u / 2 ^ 96) ++ "-" ++ hex 4 (u / 2 ^ 80) ++ "-"
  ++ hex 4 (u / 2 ^ 64) ++ "-" ++ hex 4 (u / 2 ^ 48) ++ "-" ++ hex 12 u.

(** A [datetime.date]: year 1 to 9999, month 1 to 12, day 1 to 31. *)
Record date : Type := Date {
  year : nat;
  month : nat;
  day : nat
}.

Definition digit_char (n : nat) : ascii := ascii_of_nat (48 + n mod 10).

(** [str(d)] for a date: year, month and day as 4, 2 and 2 digits. *)
Definition date_str (d : date) : string :=
  String (digit_char (year d / 1000))
    (String (digit_char (year d / 100))
       (String (digit_char (year d / 10))
          (String (digit_char (year d)) "-")))
  ++ String (digit_char (month d / 10)) (String (digit_char (month d)) "-")
  ++ String (digit_char (day d / 10)) (String (digit_char (day d)) "").

(** An entry of [data/images]: an image with its content, or a
    directory. *)
Inductive image_entry : Type :=
| Image (content : string)
| Folder.

(** What is at the path [data/images]: nothing, a directory with its
    listing, or a regular file. *)
Inductive images_path : Type :=
| NoImages
| ImagesDir (listing : list (string * image_entry))
| ImagesFile.

(** What is at the path [data]: nothing, a regular file, or a directory,
    with what [data_dir] holds of it and what is at [data/images]. *)
Inductive disk : Type :=
| NoData
| DataFile
| Data (d : data_dir) (images : images_path).

(** The part the helper functions see: for them a regular file at [data]
    is as good as nothing ([exists] is false below it, [to_csv] finds no
    directory to write into, [glob] matches nothing). *)
Definition files_of (dk : disk) : world :=
  match dk with
  | Data d _ => Some d
  | _ => None
  end.

Definition images_of (dk : disk) : option (list (string * image_entry)) :=
  match dk with
  | Data _ (ImagesDir listing) => Some listing
  | _ => None
  end.

(** Code that also touches [data/images]. *)
Definition dio (A : Type) : Type := disk -> result (A * disk).

Definition dret {A} (a : A) : dio A := fun dk => Ok (a, dk).

Definition dbind {A B} (m : dio A) (k : A -> dio B) : dio B :=
  fun dk =>
    match m dk with
    | Ok (a, dk') => k a dk'
    | Raise e => Raise e
    end.

Notation "x <-- m ;; k" := (dbind m (fun x => k))
  (at level 61, m at next level, right associativity).

(** Code of type [io] run where [data/images] is also tracked: it sees and
    changes the rest of [data] only. *)
Definition on_files {A} (m : io A) : dio A :=
  fun dk =>
    match m (files_of dk) with
    | Ok (a, Some d) =>
        Ok (a, match dk with
               | Data _ images => Data d images
               | _ => Data d NoImages
               end)
    | Ok (a, None) => Ok (a, dk)
    | Raise e => Raise e
    end.

(** [os.makedirs("data/images", exist_ok=True)]: creates [data] and
    [data/images] where they are missing; raises when one of the two is a
    regular file. *)
Definition makedirs_images : dio unit :=
  fun dk =>
    match dk with
    | NoData => Ok (tt, Data (DataDir None None) (ImagesDir []))
    | DataFile => Raise NotADirectoryError
    | Data d NoImages => Ok (tt, Data d (ImagesDir []))
    | Data d (ImagesDir _) => Ok (tt, dk)
    | Data d ImagesFile => Raise FileExistsError
    end.

(** The entry of a name in a listing. *)
Fixpoint lookup_image (name : string) (listing : list (string * image_entry)) :
  option image_entry :=
  match listing with
  | [] => None
  | (n, entry) :: rest =>
      if String.eqb n name then Some entry else lookup_image name rest
  end.

(** The listing after a file has been written: the content replaces that of
    an entry of the same name, or a new entry is added. *)
Fixpoint put_file (name content : string)
    (listing : list (string * image_entry)) : list (string * image_entry) :=
  match listing with
  | [] => [(name, Image content)]
  | (n, entry) :: rest =>
      if String.eqb n name then (name, Image content) :: rest
      else (n, entry) :: put_file name content rest
  end.

(** [open("data/images/" + name, "wb")] and [write]. *)
Definition write_image (name content : string) : dio unit :=
  fun dk =>
    match dk with
    | Data d (ImagesDir listing) =>
        match lookup_image name listing with
        | Some Folder => Raise IsADirectoryError
        | _ => Ok (tt, Data d (ImagesDir (put_file name content listing)))
        end
    | _ => Raise FileNotFoundError
    end.

Definition SUBMITTED : string :=
  "Observation submitted! Thank you for contributing 🌱".
Definition SUGGESTIONS_TITLE : string := "##### 🧠 AI Species ID Suggestions:".
Definition SUGGESTIONS_NOTE : string :=
  "These are AI-generated suggestions. For real-time ID, integrate with iNaturalist or Hugging Face models.".

(** Line 130: one suggestion. *)
Definition suggestion_line (sug : suggestion) : string :=
  "- " ++ species sug ++ " (Confidence: " ++ confidence sug ++ ")".

Section Submission.

Variable float_repr : string -> string.

(** Lines 101-133: what submitting the form does.  The arguments after the
    two UUIDs are the values of the form; [img_id] is the UUID drawn for the
    name of the image (drawn only when an image was uploaded) and [obs_id]
    the one drawn for the observation. *)
Definition submit_observation (img_id obs_id : uuid)
    (species_name common_name : string) (date_observed : date)
    (location : string) (image_file : option string)
    (notes submitted_by : string) : dio (list widget) :=
  image_url <--
    match image_file with
    | Some content =>
        _ <-- makedirs_images ;;
        _ <-- write_image (uuid_str img_id ++ ".jpg") content ;;
        dret ("data/images" ++ "/" ++ uuid_str img_id ++ ".jpg")
    | None => dret ""
    end ;;
  let obs_row :=
    Row (uuid_str obs_id) species_name common_name (date_str date_observed)
        location image_url notes
        (if String.eqb submitted_by "" then "Anonymous" else submitted_by) in
  _ <-- on_files (save_observation float_repr obs_row) ;;
  dret ([Success SUBMITTED; Markdown SUGGESTIONS_TITLE]
        ++ map (fun sug => Write (suggestion_line sug))
               (ai_species_id image_file)
        ++ [Info SUGGESTIONS_NOTE])%list.

End Submission.

(** * The vocabulary of the properties *)

(** [q] occurs in [s]: some text before it, some text after it. *)
Definition occurs_in (q s : string) : Prop :=
  exists before after, s = before ++ q ++ after.

(** A text of ASCII characters only. *)
Definition is_ascii (s : string) : bool :=
  forallb (fun c => (nat_of_ascii c <? 128)%nat) (list_ascii_of_string s).

(** What is known of [str.lower] in general: on ASCII text it folds the
    letters A to Z and leaves every other character. *)
Definition folds_ascii (lower : string -> string) : Prop :=
  forall s, is_ascii s = true -> lower s = Py.lower s.

(** The first byte of a capital letter of the Latin-1 supplement in UTF-8
    (À to Þ without the multiplication sign) and its second byte. *)
Definition latin_capital (a b : ascii) : bool :=
  (nat_of_ascii a =? 195)%nat
  && (128 <=? nat_of_ascii b)%nat && (nat_of_ascii b <=? 158)%nat
  && negb (nat_of_ascii b =? 151)%nat.

(** [str.lower] on text of ASCII and Latin-1 letters, a sample of
    [str.lower] beyond ASCII. *)
Fixpoint lower_latin (s : string) : string :=
  match s with
  | EmptyString => EmptyString
  | String a s' =>
      match s' with
      | String b rest =>
          if latin_capital a b
          then String a (String (ascii_of_nat (nat_of_ascii b + 32))
                           (lower_latin rest))
          else String (Py.lower_char a) (lower_latin s')
      | EmptyString => String (Py.lower_char a) EmptyString
      end
  end.

(** The four columns the query looks at, in the order of lines 54-57. *)
Definition SEARCHED : list (row pyval -> pyval) :=
  [species_name; common_name; notes; location].

(** The listing of [data/kb_snippets], when the directory exists. *)
Definition kb_listing (w : world) : option (list (string * node)) :=
  match w with
  | Some d => kb_snippets d
  | None => None
  end.

(** The body of [data/observations.csv], when the file exists. *)
Definition obs_body (w : world) : option csv :=
  match w with
  | Some d => observations_csv d
  | None => None
  end.

(** The last element of a sequence. *)
Fixpoint last_row {A} (l : list A) : option A :=
  match l with
  | [] => None
  | [x] => Some x
  | _ :: rest => last_row rest
  end.

(** A text that [read_csv] leaves as it is in any column: not a marker of a
    missing value, not a number, not a boolean. *)
Definition plain (tok : string) : bool :=
  negb (Pandas.is_na tok)
  && negb (Pandas.is_some (Pandas.int_literal tok))
  && negb (Pandas.float_literal tok)
  && negb (Pandas.is_some (Pandas.bool_literal tok)).

(** A text that survives reading and rewriting the file in any column: the
    empty text or a plain text. *)
Definition stable (tok : string) : bool :=
  String.eqb tok "" || plain tok.

Definition stable_line (line : row string) : Prop :=
  forallb stable (fields line) = true.

(** The value a stable text is read as. *)
Definition as_read (tok : string) : pyval :=
  if String.eqb tok "" then PyNaN else PyStr tok.

(** The eight columns, in the order of the header. *)
Definition columns {A} : list (row A -> A) :=
  [observation_id; species_name; common_name; date_observed; location;
   image_url; notes; submitted_by].

(** A table whose rows [iterrows] yields with the values of the table: it
    has no row, or a [str] in some column.  (A row is yielded as a [Series]
    of one dtype; when every column is of integers or floats and one is of
    floats, that dtype is float64 and the integers of the row come as
    floats.) *)
Definition keeps_types (obs_df : dataframe) : Prop :=
  obs_df = []
  \/ exists r col s, In r obs_df /\ In col columns /\ col r = PyStr s.

(** A text that [to_csv] writes so that [read_csv] finds it again as one
    field: it has no control character other than the tabulator and the
    line feed.  ([to_csv] puts a field with a comma, a double quote or a
    line feed between double quotes; it writes a carriage return as it is,
    and [read_csv] ends the line there.) *)
Definition clean_char (c : ascii) : bool :=
  let n := nat_of_ascii c in
  (32 <=? n)%nat || (n =? 9)%nat || (n =? 10)%nat.

Definition clean (tok : string) : bool :=
  forallb clean_char (list_ascii_of_string tok).

Definition clean_line (line : row string) : Prop :=
  forallb clean (fields line) = true.

(** An integer literal outside the range of int64. *)
Definition wide (tok : string) : bool :=
  match Pandas.int_literal tok with
  | Some z => negb (Pandas.in_int64 z)
  | None => false
  end.

(** A line without an integer literal outside int64. *)
Definition narrow_line (line : row string) : Prop :=
  forallb (fun tok => negb (wide tok)) (fields line) = true.

(** The lines of [observations.csv], none when the file does not exist. *)
Definition lines_of (w : world) : csv :=
  match obs_body w with
  | Some body => body
  | None => []
  end.

(** How one field of the file and the value read for it are related. *)
Definition read_as (tok : string) (v : pyval) : Prop :=
  (v = PyNaN <-> Pandas.is_na tok = true)
  /\ (forall s, v = PyStr s -> s = tok)
  /\ (plain tok = true -> v = PyStr tok).

(** How one field of a line and the same field after the file has been read
    and written again are related. *)
Definition rewritten_as (old new : string) : Prop :=
  (Pandas.is_na old = true -> new = "")
  /\ (plain old = true -> new = old).

(** One submission after another: [save_observation] once per record. *)
Fixpoint save_all (float_repr : string -> string) (rs : list record) :
  io unit :=
  match rs with
  | [] => ret tt
  | r :: rest =>
      _ <- save_observation float_repr r ;; save_all float_repr rest
  end.

(** The page of [ask_ai] for a table and a list of snippets. *)
Definition qa_page (query : string) (obs_df : dataframe)
    (kb : list string) : list widget :=
  let kb_hits := fst (simple_rag_query query obs_df kb) in
  let obs_hits := snd (simple_rag_query query obs_df kb) in
  ([Markdown KB_TITLE]
   ++ (if non_empty kb_hits then map Info kb_hits else [Info KB_NO_MATCH])
   ++ [Markdown OBS_TITLE]
   ++ (if non_empty obs_hits
       then map (fun r => Write (obs_hit_line r)) obs_hits
       else [Info OBS_NO_MATCH])
   ++ [Markdown ANSWER_TITLE]
   ++ [if non_empty kb_hits || non_empty obs_hits
       then Success (ai_answer kb_hits obs_hits)
       else Write (ai_answer kb_hits obs_hits)]
   ++ [Info QA_NOTE])%list.

(** The page of [ask_ai] when nothing matches. *)
Definition NOTHING_FOUND_PAGE : list widget :=
  [Markdown KB_TITLE; Info KB_NO_MATCH; Markdown OBS_TITLE;
   Info OBS_NO_MATCH; Markdown ANSWER_TITLE; Write NOT_FOUND; Info QA_NOTE].

(** The number of characters "-" of a text. *)
Fixpoint dashes (s : string) : nat :=
  match s with
  | EmptyString => 0
  | String c s' => (if Ascii.eqb c "-" then 1 else 0) + dashes s'
  end.

(** The page shown after a submission. *)
Definition SUBMITTED_PAGE : list widget :=
  [Success SUBMITTED; Markdown SUGGESTIONS_TITLE;
   Write "- Parus major (Great Tit) (Confidence: High)";
   Write "- Panthera pardus (Leopard) (Confidence: Medium)";
   Write "- Psittacula krameri (Rose-ringed Parakeet) (Confidence: Low)";
   Info SUGGESTIONS_NOTE].

(** The line a submission adds to the file. *)
Definition submitted_line (img_id obs_id : uuid) (species common : string)
    (day_seen : date) (place : string) (image_file : option string)
    (note name : string) : record :=
  Row (uuid_str obs_id) species common (date_str day_seen) place
      (match image_file with
       | Some _ => "data/images/" ++ uuid_str img_id ++ ".jpg"
       | None => ""
       end)
      note
      (if String.eqb name "" then "Anonymous" else name).

(** The loop of [get_kb_snippets] on a list of matched entries. *)
Definition kb_loop (entries : list (string * node))
    (start : result (list string)) : result (list string) :=
  fold_left
    (fun acc e =>
       match acc with
       | Ok snippets =>
           match read_text (snd e) with
           | Ok text => Ok (snippets ++ [text])%list
           | Raise x => Raise x
           end
       | Raise x => Raise x
       end)
    entries start.

(** Lines 103-111: the disk once the image, if any, has been stored. *)
Definition with_image (img_id : uuid) (image_file : option string)
    (dk : disk) : result disk :=
  match image_file with
  | None => Ok dk
  | Some content =>
      match makedirs_images dk with
      | Ok (_, dk1) =>
          match write_image (uuid_str img_id ++ ".jpg") content dk1 with
          | Ok (_, dk2) => Ok dk2
          | Raise e => Raise e
          end
      | Raise e => Raise e
      end
  end.

(** * Sample data

    The dict of a submission without an image (line 111), the row that
    [load_observations] returns for it, further rows and records, and a
    working directory before and after the first submission. *)

Definition rawal_record : record :=
  Row "b7e1c2d4-5f6a-4b3c-9d8e-7f6a5b4c3d2e" "Parus major" "Great Tit"
      "2024-05-01" "Rawal Lake" "" "singing" "Ali".

Definition empty_data : world := Some (DataDir None None).

Definition rawal_data : world := Some (DataDir (Some [rawal_record]) None).

Definition rawal_row : row pyval :=
  Row (PyStr "b7e1c2d4-5f6a-4b3c-9d8e-7f6a5b4c3d2e") (PyStr "Parus major")
      (PyStr "Great Tit") (PyStr "2024-05-01") (PyStr "Rawal Lake") PyNaN
      (PyStr "singing") (PyStr "Ali").

Definition no_notes_row : row pyval :=
  Row (PyStr "c9e66790-1a2b-4c3d-8e4f-5a6b7c8d9e0f") (PyStr "Panthera pardus")
      (PyStr "Leopard") (PyStr "2024-05-02") (PyStr "Margalla Hills Trail 3")
      PyNaN PyNaN (PyStr "Sara").

Definition margalla_record : record :=
  Row "e4a1f0b2-3c4d-4e5f-8a6b-7c8d9e0f1a2b" "Panthera pardus" "Leopard"
      "2024-05-02" "Margalla Hills Trail 3" "data/images/3f2b.jpg"
      "crossing the trail" "Sara".

(** A row with a common name outside ASCII. *)
Definition emu_row : row pyval :=
  Row (PyStr "0d3f6a52-7b1c-4e8d-9f2a-6c5b4a3d2e1f")
      (PyStr "Dromaius novaehollandiae") (PyStr "Émeu") (PyStr "2024-05-05")
      (PyStr "Islamabad Zoo") PyNaN (PyStr "behind the fence") (PyStr "Sara").

(** The dict of a submission with no common name, image or notes. *)
Definition f9_record : record :=
  Row "f16d2706-8baf-433b-82eb-8c7fada847da" "Psittacula krameri" ""
      "2024-05-03" "F-9 Park" "" "" "Ali".

(** The dict of a submitter who gives None as the name. *)
Definition none_record : record :=
  Row "550e8400-e29b-41d4-a716-446655440000" "Parus major" "Great Tit"
      "2024-05-01" "Rawal Lake" "" "singing" "None".

(** A knowledge-base directory: two snippets, a file that is not UTF-8, a
    directory, and two entries that the pattern does not match. *)
Definition mixed_kb : list (string * node) :=
  [("birds.txt", File "Great Tit is common in Margalla Hills");
   ("notes.md", File "not a snippet");
   ("scan.txt", Unreadable UnicodeDecodeError);
   (".hidden.txt", File "skipped by the pattern");
   ("old.txt", Directory)].

(** The directory [data] of a store in use: a line in the file, two
    snippets, an image. *)
Definition busy_disk : disk :=
  Data (DataDir (Some [rawal_record])
          (Some [("birds.txt", File "Great Tit is common in Margalla Hills");
                 ("cats.txt", File "Leopards live in the hills")]))
       (ImagesDir [("3f2b.jpg", Image "GIF89a")]).

(** The dict of a submitter who does not know the species and types NA. *)
Definition na_species_record : record :=
  Row "a0b1c2d3-e4f5-4a6b-8c7d-9e0f1a2b3c4d" "NA" "parakeet" "2024-05-04"
      "F-9 Park" "" "" "Bilal".

(** * Properties *)

(** ** Substring search *)

Lemma startswith_iff (p s : string) :
  Py.startswith p s = true <-> exists rest, s = p ++ rest.
Proof.
  revert s; induction p as [|a p IH]; intros s; simpl.
  - split; [intros _; now exists s | reflexivity].
  - destruct s as [|b s].
    + split; [discriminate | intros [rest H]; discriminate].
    + rewrite andb_true_iff, Ascii.eqb_eq, IH.
      split.
      * intros [-> [rest ->]]. now exists rest.
      * intros [rest H]. injection H as -> ->.
        split; [reflexivity | now exists rest].
Qed.

Lemma contains_iff (q s : string) :
  Py.contains q s = true <-> occurs_in q s.
Proof.
  unfold occurs_in.
  induction s as [|c s IH]; simpl.
  - rewrite orb_false_r, startswith_iff. split.
    + intros [rest H]. exists "", rest. exact H.
    + intros [[|x before] [after H]]; [now exists after | discriminate].
  - rewrite orb_true_iff, startswith_iff, IH. split.
    + intros [[rest H] | [before [after H]]].
      * exists "", rest. exact H.
      * exists (String c before), after. simpl. now rewrite H.
    + intros [[|x before] [after H]].
      * left. now exists after.
      * right. simpl in H. injection H as _ H. now exists before, after.
Qed.

Lemma contains_empty (s : string) : Py.contains "" s = true.
Proof. destruct s; reflexivity. Qed.

Lemma contains_refl (s : string) : Py.contains s s = true.
Proof.
  apply contains_iff. exists "", "". simpl.
  induction s as [|c s IH]; simpl; [reflexivity | now rewrite <- IH].
Qed.

(** ** The loop of [simple_rag_query] *)

Lemma append_loop_filter {A} (keep : A -> bool) (l acc : list A) :
  fold_left (fun hits r => if keep r then (hits ++ [r])%list else hits) l acc
  = (acc ++ filter keep l)%list.
Proof.
  revert acc; induction l as [|x l IH]; intros acc; simpl.
  - now rewrite app_nil_r.
  - rewrite IH. destruct (keep x); [now rewrite <- app_assoc | reflexivity].
Qed.

Lemma obs_hits_filter (query : string) (obs_df : dataframe) (kb : list string) :
  snd (simple_rag_query query obs_df kb)
  = filter (row_matches (Py.lower query)) obs_df.
Proof. unfold simple_rag_query; simpl. now rewrite append_loop_filter. Qed.

Lemma row_matches_iff (q : string) (r : row pyval) :
  row_matches q r = true
  <-> exists field, In field SEARCHED
                    /\ occurs_in q (Py.lower (py_str (field r))).
Proof.
  unfold row_matches, SEARCHED.
  rewrite !orb_true_iff, !contains_iff. split.
  - intros [[[H | H] | H] | H];
      [ exists species_name | exists common_name | exists notes
      | exists location ];
      simpl; auto 6.
  - intros [field [Hin H]]. simpl in Hin.
    destruct Hin as [<- | [<- | [<- | [<- | []]]]]; auto.
Qed.

(** C2, as stated, fails: with the empty query a snippet and an observation
    are both returned. *)
Lemma empty_query_returns_hits :
  simple_rag_query "" [rawal_row] ["Great Tit is common in Margalla Hills"]
  = (["Great Tit is common in Margalla Hills"], [rawal_row])
  /\ fst (simple_rag_query "" [rawal_row]
            ["Great Tit is common in Margalla Hills"]) <> []
  /\ snd (simple_rag_query "" [rawal_row]
            ["Great Tit is common in Margalla Hills"]) <> [].
Proof. repeat split; discriminate. Qed.

(** C2, amended: for the empty query [simple_rag_query] returns every
    snippet as kbHits and every observation as obsHits, each in its input
    order, because the empty text occurs in every text; a hit list is empty
    only when the corresponding input is. *)
Theorem empty_query_matches_everything (obs_df : dataframe)
    (kb : list string) :
  simple_rag_query "" obs_df kb = (kb, obs_df).
Proof.
  rewrite (surjective_pairing (simple_rag_query "" obs_df kb)).
  rewrite obs_hits_filter. unfold simple_rag_query; simpl. f_equal.
  - induction kb as [|s kb IH]; simpl; [reflexivity |].
    rewrite contains_empty. now f_equal.
  - induction obs_df as [|r df IH]; simpl; [reflexivity |].
    unfold row_matches at 1. rewrite contains_empty. simpl. now f_equal.
Qed.

Lemma obs_hits_exact_aux (query : string) (obs_df : dataframe)
    (kb : list string) :
  snd (simple_rag_query query obs_df kb)
  = filter (row_matches (Py.lower query)) obs_df
  /\ (forall r,
        In r (snd (simple_rag_query query obs_df kb))
        <-> In r obs_df
            /\ exists field,
                 In field SEARCHED
                 /\ occurs_in (Py.lower query) (Py.lower (py_str (field r)))).
Proof.
  rewrite obs_hits_filter. split; [reflexivity |].
  intros r. rewrite filter_In, row_matches_iff. reflexivity.
Qed.

Lemma utf8_obs_hits_filter (lower : string -> string) (query : string)
    (obs_df : dataframe) (kb : list string) :
  snd (Utf8.simple_rag_query lower query obs_df kb)
  = filter (Utf8.row_matches lower (lower query)) obs_df.
Proof. unfold Utf8.simple_rag_query; simpl. now rewrite append_loop_filter. Qed.

Lemma utf8_row_matches_iff (lower : string -> string) (q : string)
    (r : row pyval) :
  Utf8.row_matches lower q r = true
  <-> exists field, In field SEARCHED
                    /\ occurs_in q (lower (py_str (field r))).
Proof.
  unfold Utf8.row_matches, SEARCHED.
  rewrite !orb_true_iff, !contains_iff. split.
  - intros [[[H | H] | H] | H];
      [ exists species_name | exists common_name | exists notes
      | exists location ];
      simpl; auto 6.
  - intros [field [Hin H]]. simpl in Hin.
    destruct Hin as [<- | [<- | [<- | [<- | []]]]]; auto.
Qed.

Lemma utf8_with_py_lower (query : string) (obs_df : dataframe)
    (kb : list string) :
  Utf8.simple_rag_query Py.lower query obs_df kb
  = simple_rag_query query obs_df kb.
Proof. reflexivity. Qed.

Lemma lower_latin_ascii : folds_ascii lower_latin.
Proof.
  intros s. induction s as [|a s IH]; [reflexivity |].
  intros H. cbn [is_ascii list_ascii_of_string forallb] in H.
  apply andb_true_iff in H as [Ha Hs]. specialize (IH Hs).
  cbn [lower_latin Py.lower]. destruct s as [|b rest].
  - reflexivity.
  - assert (latin_capital a b = false) as ->.
    { unfold latin_capital. apply Nat.ltb_lt in Ha.
      destruct (Nat.eqb_spec (nat_of_ascii a) 195) as [E|];
        [rewrite E in Ha; lia | reflexivity]. }
    now rewrite IH.
Qed.



(** C4: whatever [str.lower] does outside ASCII, kbHits is the snippet list
    filtered, in enumeration order, by "the lowered query occurs in the
    lowered snippet"; the snippet "Great Tit is common in Margalla Hills"
    is a hit for "great tit". *)
Theorem kb_hits_exact (lower : string -> string) (query : string)
    (obs_df : dataframe) (kb : list string) :
  folds_ascii lower ->
  let hits := fst (Utf8.simple_rag_query lower query obs_df kb) in
  hits = filter (fun s => Py.contains (lower query) (lower s)) kb
  /\ (forall s,
        In s hits
        <-> In s kb /\ occurs_in (lower query) (lower s))
  /\ (In "Great Tit is common in Margalla Hills" kb ->
      In "Great Tit is common in Margalla Hills"
         (fst (Utf8.simple_rag_query lower "great tit" obs_df kb))).
Proof.
  intros Hfold. cbv zeta. unfold Utf8.simple_rag_query; simpl.
  split; [reflexivity |]. split.
  - intros s. rewrite filter_In, contains_iff. reflexivity.
  - intros Hin. apply filter_In. split; [exact Hin |].
    now rewrite (Hfold "great tit"),
      (Hfold "Great Tit is common in Margalla Hills") by reflexivity.
Qed.

(** The queries "émeu" and "great tit" on two snippets, one of which starts
    with a capital letter outside ASCII. *)
Lemma kb_hits_exact_witness :
  fst (Utf8.simple_rag_query lower_latin "émeu" []
         ["Émeu is a bird"; "Great Tit is common in Margalla Hills"])
  = ["Émeu is a bird"]
  /\ (forall s,
        In s (fst (Utf8.simple_rag_query lower_latin "émeu" []
                     ["Émeu is a bird";
                      "Great Tit is common in Margalla Hills"]))
        <-> In s ["Émeu is a bird"; "Great Tit is common in Margalla Hills"]
            /\ occurs_in (lower_latin "émeu") (lower_latin s))
  /\ In "Great Tit is common in Margalla Hills"
        (fst (Utf8.simple_rag_query lower_latin "great tit" []
                ["Émeu is a bird"; "Great Tit is common in Margalla Hills"])).
Proof.
  split; [reflexivity |].
  pose proof (kb_hits_exact lower_latin "émeu" []
                ["Émeu is a bird"; "Great Tit is common in Margalla Hills"]
                lower_latin_ascii) as H.
  split; [exact (proj1 (proj2 H)) |].
  apply (proj2 (proj2 H)). right. now left.
Defined.

(** ** Missing values and the query "nan" *)

(** C10, as stated, fails: [rawal_row] has a missing optional field
    (image_url, read back as [nan]) and the query "nan" does not return
    it. *)
Lemma nan_query_misses_missing_image :
  image_url rawal_row = PyNaN
  /\ snd (simple_rag_query "nan" [rawal_row] []) = [].
Proof. split; reflexivity. Qed.

(** C10, amended: the query matches on [str] of species_name, common_name,
    notes and location, which is defined for every value; so an observation
    in which one of these four fields is missing ([nan]) is a hit for the
    query "nan".  A missing field outside these four (image_url) does not
    make the observation a hit. *)
Theorem nan_query_matches_missing_field (obs_df : dataframe)
    (kb : list string) (r : row pyval) (field : row pyval -> pyval) :
  In r obs_df -> In field SEARCHED -> field r = PyNaN ->
  In r (snd (simple_rag_query "nan" obs_df kb)).
Proof.
  intros Hin Hfield Hnan.
  apply (proj2 (obs_hits_exact_aux "nan" obs_df kb) r).
  split; [exact Hin |].
  exists field. split; [exact Hfield |].
  rewrite Hnan. exists "", "". reflexivity.
Qed.

Lemma nan_query_matches_missing_field_witness :
  In no_notes_row (snd (simple_rag_query "nan" [rawal_row; no_notes_row] [])).
Proof.
  apply (nan_query_matches_missing_field [rawal_row; no_notes_row] []
           no_notes_row notes).
  - simpl. right. left. reflexivity.
  - simpl. right. right. left. reflexivity.
  - reflexivity.
Defined.

(** ** The species identifier *)

(** C7: whatever the input, an image or none, [ai_species_id] returns the
    same three (species, confidence) pairs in the same order. *)
Theorem ai_species_id_fixed (image_file : option string) :
  ai_species_id image_file
  = [ Suggestion "Parus major (Great Tit)" "High";
      Suggestion "Panthera pardus (Leopard)" "Medium";
      Suggestion "Psittacula krameri (Rose-ringed Parakeet)" "Low" ]
  /\ ai_species_id image_file = ai_species_id None.
Proof. split; reflexivity. Qed.

(** ** The top observer *)

(** C8: on a table whose submitted_by column is Ali, Ali, Sara the top
    observer is Ali; on the empty table it is "N/A". *)
Theorem top_observer_examples (obs_df : dataframe) :
  map submitted_by obs_df = [PyStr "Ali"; PyStr "Ali"; PyStr "Sara"] ->
  get_top_observer obs_df = Ok (PyStr "Ali")
  /\ get_top_observer [] = Ok (PyStr "N/A").
Proof.
  intros H. split; [| reflexivity].
  unfold get_top_observer. rewrite H.
  destruct obs_df as [|r df]; [discriminate | reflexivity].
Qed.

Lemma top_observer_examples_witness :
  get_top_observer
    [rawal_row;
     Row (PyStr "f16d2706-8baf-433b-82eb-8c7fada847da")
         (PyStr "Psittacula krameri") PyNaN (PyStr "2024-05-03")
         (PyStr "F-9 Park") PyNaN PyNaN (PyStr "Ali");
     no_notes_row]
  = Ok (PyStr "Ali")
  /\ get_top_observer [] = Ok (PyStr "N/A").
Proof.
  apply top_observer_examples. reflexivity.
Defined.

(** ** The knowledge base *)

(** C9: when the knowledge-base directory does not exist,
    [get_kb_snippets] returns the empty list and raises nothing. *)
Theorem kb_missing_directory_is_empty (w : world) :
  kb_listing w = None -> get_kb_snippets w = Ok [].
Proof.
  intros H. unfold get_kb_snippets, glob_kb_txt.
  destruct w as [d|]; [| reflexivity].
  simpl in H. rewrite H. reflexivity.
Qed.

Lemma kb_missing_directory_is_empty_witness :
  get_kb_snippets (Some (DataDir (Some []) None)) = Ok [].
Proof.
  apply (kb_missing_directory_is_empty (Some (DataDir (Some []) None))).
  reflexivity.
Defined.

(** ** The observation store *)

Section Store.

Variable float_repr : string -> string.

Lemma load_present (d : data_dir) (body : csv) :
  observations_csv d = Some body ->
  load_observations float_repr (Some d)
  = Ok (Pandas.read_csv float_repr body, Some d).
Proof.
  intros H. unfold load_observations, bind, obs_csv_exists, read_obs_csv.
  rewrite H. simpl. now rewrite H.
Qed.

Lemma load_absent (d : data_dir) :
  observations_csv d = None ->
  load_observations float_repr (Some d)
  = Ok ([], Some (DataDir (Some []) (kb_snippets d))).
Proof.
  intros H. unfold load_observations, bind, obs_csv_exists, read_obs_csv.
  rewrite H. reflexivity.
Qed.

Lemma load_without_data_dir :
  load_observations float_repr None = Raise OSError.
Proof. reflexivity. Qed.

Lemma save_present (r : record) (d : data_dir) (body : csv) :
  observations_csv d = Some body ->
  save_observation float_repr r (Some d)
  = Ok (tt, Some (DataDir
                    (Some (Pandas.to_csv
                             (Pandas.read_csv float_repr body) ++ [r])%list)
                    (kb_snippets d))).
Proof.
  intros H. unfold save_observation, bind. rewrite (load_present d body H).
  unfold write_obs_csv, Pandas.concat, Pandas.DataFrame1, Pandas.to_csv.
  rewrite map_app. destruct r; reflexivity.
Qed.

Lemma save_absent (r : record) (d : data_dir) :
  observations_csv d = None ->
  save_observation float_repr r (Some d)
  = Ok (tt, Some (DataDir (Some [r]) (kb_snippets d))).
Proof.
  intros H. unfold save_observation, bind. rewrite (load_absent d H).
  destruct r; reflexivity.
Qed.

Lemma last_row_app {A} (l : list A) (x : A) :
  last_row (l ++ [x])%list = Some x.
Proof.
  induction l as [|y l IH]; [reflexivity |].
  simpl. destruct (l ++ [x])%list eqn:E; [| exact IH].
  destruct l; discriminate.
Qed.

Lemma last_row_map_app {A B} (f : A -> B) (l : list A) (x : A) :
  last_row (map f (l ++ [x])%list) = Some (f x).
Proof. rewrite map_app. apply last_row_app. Qed.

Lemma forallb_fails {A} (f : A -> bool) (l : list A) (x : A) :
  In x l -> f x = false -> forallb f l = false.
Proof.
  intros Hin Hx. destruct (forallb f l) eqn:E; [| reflexivity].
  rewrite forallb_forall in E. rewrite (E x Hin) in Hx. discriminate.
Qed.

(** A column that holds a plain text is read as text. *)
Lemma infer_plain (toks : list string) (tok : string) :
  In tok toks -> plain tok = true -> Pandas.infer toks = Pandas.AsText.
Proof.
  intros Hin Hp. unfold plain in Hp.
  rewrite !andb_true_iff, !negb_true_iff in Hp.
  destruct Hp as [[[Hna Hint] Hfloat] Hbool].
  unfold Pandas.infer.
  rewrite (forallb_fails _ toks tok Hin) by (now rewrite Hna, Hint).
  rewrite (forallb_fails _ toks tok Hin) by (now rewrite Hna, Hfloat).
  rewrite (forallb_fails _ toks tok Hin) by (now rewrite Hna, Hbool).
  reflexivity.
Qed.

Lemma convert_plain (toks : list string) (tok : string) :
  In tok toks -> plain tok = true ->
  Pandas.convert float_repr (Pandas.infer toks) tok = PyStr tok.
Proof.
  intros Hin Hp. rewrite (infer_plain toks tok Hin Hp).
  unfold plain in Hp. rewrite !andb_true_iff, !negb_true_iff in Hp.
  unfold Pandas.convert. now rewrite (proj1 (proj1 (proj1 Hp))).
Qed.

(** A table read from a file whose identifiers are plain texts, as those
    the program draws are, holds a [str]. *)
Lemma read_csv_keeps_types (body : csv) :
  Forall (fun line => plain (observation_id line) = true) body ->
  keeps_types (Pandas.read_csv float_repr body).
Proof.
  intros Hall. destruct body as [|line rest]; [now left |]. right.
  apply Forall_inv in Hall.
  eexists. exists observation_id, (observation_id line).
  split; [now left |]. split; [now left |].
  cbn [observation_id]. apply convert_plain; [now left | exact Hall].
Qed.

Lemma read_csv_last_plain (body : csv) (r : record) :
  forallb plain (fields r) = true ->
  last_row (Pandas.read_csv float_repr (body ++ [r])%list)
  = Some (row_map PyStr r).
Proof.
  intros Hp. simpl in Hp. rewrite !andb_true_iff in Hp.
  destruct Hp as (H1 & H2 & H3 & H4 & H5 & H6 & H7 & H8 & _).
  unfold Pandas.read_csv. rewrite last_row_map_app.
  unfold row_map.
  repeat rewrite convert_plain
    by (first [ rewrite map_app; apply in_or_app; right; left; reflexivity
              | assumption ]).
  reflexivity.
Qed.

End Store.

(** C1, as stated, fails: the record of a submission without an image has
    the empty text as image_url; after [save_observation] into an empty
    store, [load_observations] returns one row whose image_url is [nan],
    so the last row is not the record. *)
Lemma roundtrip_loses_empty_field :
  (forall float_repr,
      save_observation float_repr rawal_record empty_data
      = Ok (tt, rawal_data))
  /\ (forall float_repr,
        load_observations float_repr rawal_data
        = Ok ([rawal_row], rawal_data))
  /\ last_row [rawal_row] <> Some (row_map PyStr rawal_record)
  /\ image_url rawal_record = ""
  /\ image_url rawal_row = PyNaN.
Proof.
  split; [reflexivity |]. split; [reflexivity |].
  split; [discriminate |]. split; reflexivity.
Qed.

(** C1, amended: when the directory [data] exists, each of the eight
    fields of the record is a text that [read_csv] reads as it is (not
    empty or another marker of a missing value, not a number, not the word
    true or false in any case), and neither the record nor a line already in
    the file holds a carriage return or another control character that
    [to_csv] writes unquoted, [save_observation] followed by
    [load_observations] succeeds and the last row read equals the record
    field for field. *)
Theorem append_then_read_last (float_repr : string -> string) (r : record)
    (w : world) :
  w <> None ->
  forallb plain (fields r) = true ->
  forallb clean (fields r) = true ->
  Forall clean_line (lines_of w) ->
  exists w1 df,
    save_observation float_repr r w = Ok (tt, w1)
    /\ load_observations float_repr w1 = Ok (df, w1)
    /\ last_row df = Some (row_map PyStr r).
Proof.
  intros Hw Hp _ _. destruct w as [d|]; [clear Hw | contradiction].
  destruct (observations_csv d) as [body|] eqn:E.
  - eexists; eexists. split; [apply (save_present float_repr r d body E) |].
    split; [now apply load_present |].
    now apply read_csv_last_plain.
  - eexists; eexists. split; [apply (save_absent float_repr r d E) |].
    split; [now apply load_present |].
    now apply (read_csv_last_plain float_repr [] r).
Qed.

Lemma append_then_read_last_witness :
  exists w1 df,
    save_observation (fun lit => lit) margalla_record rawal_data = Ok (tt, w1)
    /\ load_observations (fun lit => lit) w1 = Ok (df, w1)
    /\ last_row df = Some (row_map PyStr margalla_record).
Proof.
  apply (append_then_read_last (fun lit => lit) margalla_record rawal_data).
  - discriminate.
  - reflexivity.
  - reflexivity.
  - repeat constructor.
Defined.

(** C6: when [observations.csv] exists, [load_observations] leaves the
    files as they are and returns the rows of the file, so running it again
    changes nothing; and whenever it changes the files, the file was absent
    and is created with the header and no row. *)
Theorem store_initialization_idempotent (float_repr : string -> string)
    (w : world) (body : csv) :
  obs_body w = Some body ->
  load_observations float_repr w = Ok (Pandas.read_csv float_repr body, w)
  /\ (forall w0 df w1,
        load_observations float_repr w0 = Ok (df, w1) ->
        load_observations float_repr w1 = Ok (df, w1)
        /\ (w1 <> w0 ->
            obs_body w0 = None /\ obs_body w1 = Some [] /\ df = []
            /\ kb_listing w1 = kb_listing w0)).
Proof.
  intros H. split.
  - destruct w as [d|]; [| discriminate]. now apply load_present.
  - intros [d|] df w1 Hload; [| discriminate].
    destruct (observations_csv d) as [b|] eqn:E.
    + rewrite (load_present float_repr d b E) in Hload.
      injection Hload as <- <-. split; [now apply load_present |].
      intros Hne. now contradiction Hne.
    + rewrite (load_absent float_repr d E) in Hload.
      injection Hload as <- <-. split; [reflexivity |].
      intros _. repeat split. exact E.
Qed.

Lemma store_initialization_idempotent_witness :
  load_observations (fun lit => lit) rawal_data
  = Ok (Pandas.read_csv (fun lit => lit) [rawal_record], rawal_data)
  /\ (forall w0 df w1,
        load_observations (fun lit => lit) w0 = Ok (df, w1) ->
        load_observations (fun lit => lit) w1 = Ok (df, w1)
        /\ (w1 <> w0 ->
            obs_body w0 = None /\ obs_body w1 = Some [] /\ df = []
            /\ kb_listing w1 = kb_listing w0)).
Proof.
  apply (store_initialization_idempotent (fun lit => lit) rawal_data
           [rawal_record]).
  reflexivity.
Defined.

(** ** The answer text *)

Lemma string_app_assoc (a b c : string) : (a ++ b) ++ c = a ++ b ++ c.
Proof. induction a as [|x a IH]; simpl; [reflexivity | now rewrite IH]. Qed.

Lemma string_app_nil_r (a : string) : a ++ "" = a.
Proof. induction a as [|x a IH]; simpl; [reflexivity | now rewrite IH]. Qed.

Lemma join_app (sep : string) (a b : list string) :
  a <> [] -> b <> [] ->
  Py.join sep (a ++ b)%list = Py.join sep a ++ sep ++ Py.join sep b.
Proof.
  intros Ha Hb. induction a as [|x a IH]; [contradiction |].
  destruct a as [|y a].
  - destruct b as [|z b]; [contradiction | reflexivity].
  - change (Py.join sep ((x :: y :: a) ++ b)%list)
      with (x ++ sep ++ Py.join sep ((y :: a) ++ b)%list).
    rewrite IH by discriminate.
    change (Py.join sep (x :: y :: a))
      with (x ++ sep ++ Py.join sep (y :: a)).
    now rewrite !string_app_assoc.
Qed.

(** The first line of a text has no line feed, and the text continues,
    if at all, with a line feed. *)
Lemma first_line_spec (s : string) :
  Py.contains LF (Py.first_line s) = false
  /\ exists rest,
       s = Py.first_line s ++ rest
       /\ (rest = "" \/ Py.startswith LF rest = true).
Proof.
  induction s as [|c s [IH1 [rest [IH2 IH3]]]]; simpl.
  - split; [reflexivity |]. exists "". auto.
  - destruct (Ascii.eqb c "010") eqn:E.
    + apply Ascii.eqb_eq in E. subst c. split; [reflexivity |].
      exists (String "010" s). split; [reflexivity | now right].
    + split.
      * change (Py.contains LF (String c (Py.first_line s)))
          with (Ascii.eqb "010" c && true
                || Py.contains LF (Py.first_line s)).
        now rewrite Ascii.eqb_sym, E, IH1.
      * exists rest. split; [simpl; now rewrite <- IH2 | exact IH3].
Qed.

(** C5: the answer is the fixed "not found" text exactly when both hit
    lists are empty; otherwise it is the header followed by a bullet list,
    one bullet per knowledge-base hit showing the first line of the hit,
    then one bullet per observation hit of the form
    "<species_name> observed at <location> (<date_observed>)", each of the
    three values as [str] renders it (a missing species name as "nan"), the
    bullets separated by line feeds (with a final line feed when there are
    knowledge-base hits and no observation hit).  The answer is a function
    of the two hit lists. *)
Theorem ai_answer_shape (kb_hits : list string)
    (obs_hits : list (row pyval)) :
  (ai_answer kb_hits obs_hits = NOT_FOUND <-> kb_hits = [] /\ obs_hits = [])
  /\ (kb_hits <> [] \/ obs_hits <> [] ->
      ai_answer kb_hits obs_hits
      = FOUND_HEADER
        ++ Py.join LF (map kb_line kb_hits ++ map obs_line obs_hits)%list
        ++ (if non_empty kb_hits && negb (non_empty obs_hits) then LF
            else ""))
  /\ (forall hit,
        kb_line hit = "• " ++ Py.first_line hit
        /\ Py.contains LF (Py.first_line hit) = false
        /\ exists rest,
             hit = Py.first_line hit ++ rest
             /\ (rest = "" \/ Py.startswith LF rest = true))
  /\ (forall r,
        obs_line r
        = "• " ++ py_str (species_name r) ++ " observed at "
          ++ py_str (location r) ++ " (" ++ py_str (date_observed r) ++ ")")
  /\ (forall r species place date,
        species_name r = PyStr species -> location r = PyStr place ->
        date_observed r = PyStr date ->
        obs_line r
        = "• " ++ species ++ " observed at " ++ place ++ " (" ++ date ++ ")")
  /\ (forall r place date,
        species_name r = PyNaN -> location r = PyStr place ->
        date_observed r = PyStr date ->
        obs_line r = "• nan observed at " ++ place ++ " (" ++ date ++ ")")
  /\ (forall kb_hits' obs_hits',
        kb_hits' = kb_hits -> obs_hits' = obs_hits ->
        ai_answer kb_hits' obs_hits' = ai_answer kb_hits obs_hits).
Proof.
  split; [| split; [| split; [| split; [| split; [| split]]]]].
  - split.
    + intros H. destruct kb_hits as [|k kb]; destruct obs_hits as [|o obs];
        [split; reflexivity | | |]; discriminate H.
    + intros [-> ->]. reflexivity.
  - intros H. unfold ai_answer.
    destruct kb_hits as [|k kb]; destruct obs_hits as [|o obs].
    + destruct H as [H | H]; contradiction.
    + simpl non_empty. simpl orb. simpl andb. cbv iota.
      change (map kb_line []) with (@nil string).
      rewrite app_nil_l, string_app_nil_r. reflexivity.
    + simpl non_empty. simpl orb. simpl andb. cbv iota.
      change (map obs_line []) with (@nil string).
      rewrite app_nil_r. reflexivity.
    + simpl non_empty. simpl orb. simpl andb. cbv iota.
      rewrite join_app by discriminate.
      now rewrite string_app_nil_r.
  - intros hit. split; [reflexivity |]. apply first_line_spec.
  - intros r. reflexivity.
  - intros r species place date Hs Hl Hd. unfold obs_line.
    now rewrite Hs, Hl, Hd.
  - intros r place date Hs Hl Hd. unfold obs_line.
    now rewrite Hs, Hl, Hd.
  - intros kb' obs' -> ->. reflexivity.
Qed.

(** * Further properties of the code *)

(** ** The store: appending, earlier lines *)

Lemma column_forall (P : string -> bool) (body : csv)
    (col : row string -> string) :
  Forall (fun line => forallb P (fields line) = true) body ->
  In col columns ->
  forall tok, In tok (map col body) -> P tok = true.
Proof.
  intros Hall Hcol tok Hin. apply in_map_iff in Hin as [line [<- Hline]].
  rewrite Forall_forall in Hall. specialize (Hall line Hline).
  rewrite forallb_forall in Hall. apply Hall.
  change (fields line) with (map (fun c : row string -> string => c line)
                               columns).
  now apply (in_map (fun c : row string -> string => c line)).
Qed.

Ltac a_column := simpl; auto 10.

Section StoreMore.

Variable float_repr : string -> string.

Lemma save_outcome (r : record) (w : world) :
  match w with
  | None => save_observation float_repr r w = Raise OSError
  | Some d =>
      save_observation float_repr r w
      = Ok (tt, Some (DataDir
                        (Some (Pandas.to_csv
                                 (Pandas.read_csv float_repr (lines_of w))
                               ++ [r])%list)
                        (kb_snippets d)))
  end.
Proof.
  destruct w as [d|]; [| reflexivity].
  unfold lines_of, obs_body.
  destruct (observations_csv d) as [body|] eqn:E.
  - now apply save_present.
  - now apply save_absent.
Qed.

Lemma load_outcome (w : world) :
  match w with
  | None => load_observations float_repr w = Raise OSError
  | Some d =>
      load_observations float_repr w
      = Ok (Pandas.read_csv float_repr (lines_of w),
            Some (DataDir (Some (lines_of w)) (kb_snippets d)))
  end.
Proof.
  destruct w as [d|]; [| reflexivity].
  unfold lines_of, obs_body.
  destruct (observations_csv d) as [body|] eqn:E.
  - rewrite (load_present float_repr d body E). destruct d; simpl in *.
    now rewrite E.
  - now apply load_absent.
Qed.

Lemma to_csv_length (df : dataframe) :
  length (Pandas.to_csv df) = length df.
Proof. apply length_map. Qed.

Lemma read_csv_length (body : csv) :
  length (Pandas.read_csv float_repr body) = length body.
Proof. apply length_map. Qed.

(** X2: when neither the record nor a line of the file holds a carriage
    return or another control character that [to_csv] writes unquoted, a
    successful [save_observation] rewrites the file as one line per earlier
    line followed by the texts of the record, unchanged, as the last line;
    it leaves the knowledge-base directory as it was. *)
Theorem save_appends_one_line (r : record) (w w1 : world) :
  forallb clean (fields r) = true ->
  Forall clean_line (lines_of w) ->
  save_observation float_repr r w = Ok (tt, w1) ->
  exists earlier,
    obs_body w1 = Some (earlier ++ [r])%list
    /\ length earlier = length (lines_of w)
    /\ kb_listing w1 = kb_listing w.
Proof.
  intros _ _ H. pose proof (save_outcome r w) as Hs.
  destruct w as [d|]; rewrite Hs in H; [| discriminate].
  injection H as <-. eexists. split; [reflexivity |].
  split; [| reflexivity].
  now rewrite to_csv_length, read_csv_length.
Qed.

Lemma plain_not_empty (tok : string) :
  plain tok = true -> String.eqb tok "" = false.
Proof.
  intros H. destruct (String.eqb_spec tok ""); [subst; discriminate | easy].
Qed.

Lemma stable_not_wide (tok : string) : stable tok = true -> wide tok = false.
Proof.
  unfold stable, wide. intros H. apply orb_true_iff in H as [He | Hp].
  - apply String.eqb_eq in He. now subst tok.
  - unfold plain in Hp. rewrite !andb_true_iff, !negb_true_iff in Hp.
    destruct Hp as [[[_ Hint] _] _].
    now destruct (Pandas.int_literal tok).
Qed.

(** A column without an integer outside int64 is not kept as its texts. *)
Lemma infer_narrow (toks : list string) :
  (forall tok, In tok toks -> wide tok = false) ->
  Pandas.infer toks <> Pandas.AsVerbatim.
Proof.
  intros Hn. unfold Pandas.infer.
  destruct (forallb (fun t => Pandas.is_na t
                              || Pandas.is_some (Pandas.int_literal t)) toks)
    eqn:E1.
  - assert (forallb (fun t => Pandas.is_na t
                              || Pandas.int_in Pandas.in_int64 t) toks = true)
      as ->.
    { apply forallb_forall. intros t Ht.
      rewrite forallb_forall in E1. specialize (E1 t Ht).
      specialize (Hn t Ht). unfold wide in Hn. unfold Pandas.int_in.
      destruct (Pandas.is_na t); [reflexivity |]. simpl in *.
      destruct (Pandas.int_literal t); [| discriminate].
      now apply negb_false_iff in Hn. }
    destruct (existsb Pandas.is_na toks); discriminate.
  - destruct (forallb (fun t => Pandas.is_na t || Pandas.float_literal t) toks);
      [discriminate |].
    destruct (forallb (fun t => Pandas.is_na t
                                || Pandas.is_some (Pandas.bool_literal t)) toks);
      discriminate.
Qed.

Lemma convert_na (k : Pandas.conversion) (tok : string) :
  k <> Pandas.AsVerbatim -> Pandas.is_na tok = true ->
  Pandas.convert float_repr k tok = PyNaN.
Proof.
  intros Hk Hna. unfold Pandas.convert. rewrite Hna.
  destruct k; try reflexivity. now contradiction Hk.
Qed.

Lemma convert_nan_only (k : Pandas.conversion) (tok : string) :
  Pandas.convert float_repr k tok = PyNaN -> Pandas.is_na tok = true.
Proof.
  unfold Pandas.convert. destruct (Pandas.is_na tok); [reflexivity |].
  destruct k; [destruct (Pandas.int_literal tok) | |
               destruct (Pandas.bool_literal tok) | |]; discriminate.
Qed.

Lemma convert_str (k : Pandas.conversion) (tok s : string) :
  Pandas.convert float_repr k tok = PyStr s -> s = tok.
Proof.
  unfold Pandas.convert.
  destruct k; destruct (Pandas.is_na tok);
    try destruct (Pandas.int_literal tok);
    try destruct (Pandas.bool_literal tok);
    intros H; try discriminate; now injection H.
Qed.

Lemma convert_stable (toks : list string) (tok : string) :
  (forall t, In t toks -> stable t = true) ->
  In tok toks ->
  Pandas.convert float_repr (Pandas.infer toks) tok = as_read tok.
Proof.
  intros Hall Hin. pose proof (Hall tok Hin) as Hs.
  unfold stable in Hs. apply orb_true_iff in Hs.
  destruct Hs as [He | Hp].
  - apply String.eqb_eq in He. subst tok. apply convert_na; [| reflexivity].
    apply infer_narrow. intros t Ht. apply stable_not_wide. now apply Hall.
  - rewrite (convert_plain float_repr toks tok Hin Hp).
    unfold as_read. now rewrite plain_not_empty.
Qed.

Lemma cell_text_as_read (tok : string) :
  Pandas.cell_text (as_read tok) = tok.
Proof.
  unfold as_read. destruct (String.eqb_spec tok ""); [now subst | reflexivity].
Qed.

(** A file of stable lines is read field by field. *)
Lemma read_csv_stable (body : csv) :
  Forall stable_line body ->
  Pandas.read_csv float_repr body = map (row_map as_read) body.
Proof.
  intros Hall. unfold Pandas.read_csv. apply map_ext_in. intros line Hin.
  unfold row_map.
  repeat rewrite convert_stable
    by (first [ apply (column_forall stable body _ Hall); a_column
              | apply in_map; exact Hin ]).
  reflexivity.
Qed.

Lemma to_csv_as_read (body : csv) :
  Pandas.to_csv (map (row_map as_read) body) = body.
Proof.
  unfold Pandas.to_csv. rewrite map_map. rewrite <- (map_id body) at 2.
  apply map_ext. intros [a b c d e f g h]. unfold row_map. simpl.
  now rewrite !cell_text_as_read.
Qed.

Lemma lines_of_written (body : csv) (kb : option (list (string * node))) :
  lines_of (Some (DataDir (Some body) kb)) = body.
Proof. reflexivity. Qed.

Lemma save_stable (r : record) (d : data_dir) :
  Forall stable_line (lines_of (Some d)) ->
  save_observation float_repr r (Some d)
  = Ok (tt, Some (DataDir (Some (lines_of (Some d) ++ [r])%list)
                          (kb_snippets d))).
Proof.
  intros Hall. rewrite (save_outcome r (Some d)).
  now rewrite (read_csv_stable _ Hall), to_csv_as_read.
Qed.

(** X3: when every field of every line of the file is stable (empty or
    plain text) and neither the record nor a line holds a carriage return or
    another control character that [to_csv] writes unquoted,
    [save_observation] leaves these lines exactly as they are and adds the
    record as the last line. *)
Theorem save_keeps_stable_lines (r : record) (d : data_dir) :
  Forall stable_line (lines_of (Some d)) ->
  Forall clean_line (lines_of (Some d)) ->
  forallb clean (fields r) = true ->
  save_observation float_repr r (Some d)
  = Ok (tt, Some (DataDir (Some (lines_of (Some d) ++ [r])%list)
                          (kb_snippets d))).
Proof. intros Hall _ _. now apply save_stable. Qed.

Lemma save_all_stable (rs : list record) (d : data_dir) :
  Forall stable_line (lines_of (Some d)) ->
  Forall stable_line rs ->
  rs <> [] ->
  save_all float_repr rs (Some d)
  = Ok (tt, Some (DataDir (Some (lines_of (Some d) ++ rs)%list)
                          (kb_snippets d))).
Proof.
  revert d. induction rs as [|r rest IH]; intros d Hd Hrs Hne.
  - contradiction.
  - apply Forall_cons_iff in Hrs as [Hr Hrest].
    cbn [save_all]. unfold bind at 1.
    rewrite (save_stable r d Hd).
    destruct rest as [|r' rest'].
    + reflexivity.
    + rewrite IH; [| | exact Hrest | discriminate].
      * rewrite lines_of_written. cbn [kb_snippets].
        now rewrite <- app_assoc.
      * rewrite lines_of_written. apply Forall_app. split; [exact Hd |].
        now constructor.
Qed.

(** X4: starting from a store whose lines are stable, submitting records
    with stable fields one after another and then calling
    [load_observations] returns the earlier lines followed by the records, in
    submission order, each field as its text, or [nan] for an empty text;
    the file then holds exactly these lines.  (Neither the lines nor the
    records hold a carriage return or another control character that
    [to_csv] writes unquoted.) *)
Theorem saved_sequence_reads_back (rs : list record) (d : data_dir) :
  Forall stable_line (lines_of (Some d)) ->
  Forall stable_line rs ->
  Forall clean_line (lines_of (Some d)) ->
  Forall clean_line rs ->
  exists w1 w2,
    save_all float_repr rs (Some d) = Ok (tt, w1)
    /\ load_observations float_repr w1
       = Ok (map (row_map as_read) (lines_of (Some d) ++ rs)%list, w2)
    /\ obs_body w2 = Some (lines_of (Some d) ++ rs)%list
    /\ kb_listing w2 = kb_snippets d.
Proof.
  intros Hd Hrs _ _. destruct rs as [|r rest].
  - exists (Some d). eexists. split; [reflexivity |].
    rewrite (load_outcome (Some d)), app_nil_r.
    rewrite (read_csv_stable _ Hd). repeat split.
  - eexists. eexists.
    split; [apply (save_all_stable (r :: rest) d Hd Hrs); discriminate |].
    rewrite (load_outcome (Some _)), lines_of_written.
    rewrite read_csv_stable by (apply Forall_app; now split).
    repeat split.
Qed.

Lemma convert_read_as (toks : list string) (tok : string) :
  (forall t, In t toks -> wide t = false) ->
  In tok toks ->
  read_as tok (Pandas.convert float_repr (Pandas.infer toks) tok).
Proof.
  intros Hn Hin. split; [| split].
  - split; [apply convert_nan_only |].
    apply convert_na. now apply infer_narrow.
  - intros s. apply convert_str.
  - now apply convert_plain.
Qed.

Lemma convert_rewritten_as (toks : list string) (tok : string) :
  (forall t, In t toks -> wide t = false) ->
  In tok toks ->
  rewritten_as tok
    (Pandas.cell_text (Pandas.convert float_repr (Pandas.infer toks) tok)).
Proof.
  intros Hn Hin. split.
  - intros Hna. rewrite convert_na; [reflexivity | | exact Hna].
    now apply infer_narrow.
  - intros Hp. now rewrite convert_plain.
Qed.

Lemma narrow_column (body : csv) (col : row string -> string) :
  Forall narrow_line body -> In col columns ->
  forall tok, In tok (map col body) -> wide tok = false.
Proof.
  intros Hall Hcol tok Hin. apply negb_true_iff.
  exact (column_forall (fun t => negb (wide t)) body col Hall Hcol tok Hin).
Qed.

Lemma read_csv_line (body : csv) (i : nat) (line : row string) :
  Forall narrow_line body ->
  nth_error body i = Some line ->
  exists r,
    nth_error (Pandas.read_csv float_repr body) i = Some r
    /\ Forall2 read_as (fields line) (fields r)
    /\ Forall2 rewritten_as (fields line) (fields (row_map Pandas.cell_text r)).
Proof.
  intros Hn H. pose proof (nth_error_In _ _ H) as Hin.
  unfold Pandas.read_csv. rewrite nth_error_map, H. simpl.
  eexists. split; [reflexivity |].
  split; unfold fields; simpl.
  - repeat (apply Forall2_cons;
            [apply convert_read_as;
             [apply (narrow_column body _ Hn); a_column
             | apply in_map; exact Hin] |]).
    apply Forall2_nil.
  - repeat (apply Forall2_cons;
            [apply convert_rewritten_as;
             [apply (narrow_column body _ Hn); a_column
             | apply in_map; exact Hin] |]).
    apply Forall2_nil.
Qed.

(** X5: when the file exists and holds no integer outside the range of
    int64, [load_observations] leaves the files as they are and returns one
    row per line, in the order of the file; in each row a value is [nan]
    exactly when the text of the field is a marker of a missing value, a
    value that is a [str] is the text of the field, and a plain text is read
    as itself. *)
Theorem load_reads_line_by_line (d : data_dir) (body : csv) :
  observations_csv d = Some body ->
  Forall narrow_line body ->
  exists df,
    load_observations float_repr (Some d) = Ok (df, Some d)
    /\ length df = length body
    /\ forall i line,
         nth_error body i = Some line ->
         exists r,
           nth_error df i = Some r
           /\ Forall2 read_as (fields line) (fields r).
Proof.
  intros H Hn. exists (Pandas.read_csv float_repr body).
  split; [now apply load_present |].
  split; [apply read_csv_length |].
  intros i line Hi.
  destruct (read_csv_line body i line Hn Hi) as (r & Hr & Hf & _).
  now exists r.
Qed.

(** X6: [save_observation] rewrites every earlier line from the values
    read: when the file holds no integer outside the range of int64 and
    neither the file nor the record a carriage return or another control
    character that [to_csv] writes unquoted, then in the line at the same
    position afterwards a field that was a marker of a missing value (NA,
    null, None, nan, ...) is the empty text, and a field that was a plain
    text is unchanged. *)
Theorem save_rewrites_earlier_lines (r : record) (d : data_dir)
    (body : csv) (i : nat) (line : row string) :
  observations_csv d = Some body ->
  Forall narrow_line body ->
  Forall clean_line body ->
  forallb clean (fields r) = true ->
  nth_error body i = Some line ->
  exists w1 body1 line1,
    save_observation float_repr r (Some d) = Ok (tt, w1)
    /\ obs_body w1 = Some body1
    /\ nth_error body1 i = Some line1
    /\ Forall2 rewritten_as (fields line) (fields line1).
Proof.
  intros H Hn _ _ Hi.
  destruct (read_csv_line body i line Hn Hi) as (v & Hv & _ & Hf).
  eexists. eexists. exists (row_map Pandas.cell_text v).
  split; [apply (save_present float_repr r d body H) |].
  split; [reflexivity |].
  split; [| exact Hf].
  rewrite nth_error_app1.
  - unfold Pandas.to_csv. now rewrite nth_error_map, Hv.
  - rewrite to_csv_length, read_csv_length.
    apply nth_error_Some. now rewrite Hi.
Qed.

End StoreMore.

Lemma save_appends_one_line_witness :
  exists earlier,
    obs_body (Some (DataDir (Some [rawal_record; margalla_record]) None))
    = Some (earlier ++ [margalla_record])%list
    /\ length earlier = length (lines_of rawal_data)
    /\ kb_listing (Some (DataDir (Some [rawal_record; margalla_record]) None))
       = kb_listing rawal_data.
Proof.
  apply (save_appends_one_line (fun lit => lit) margalla_record rawal_data).
  - reflexivity.
  - repeat constructor.
  - reflexivity.
Defined.

Lemma save_keeps_stable_lines_witness :
  save_observation (fun lit => lit) margalla_record rawal_data
  = Ok (tt, Some (DataDir (Some [rawal_record; margalla_record]) None)).
Proof.
  apply (save_keeps_stable_lines (fun lit => lit) margalla_record
           (DataDir (Some [rawal_record]) None)).
  - repeat constructor.
  - repeat constructor.
  - reflexivity.
Defined.

(** Two submissions into a store that already holds a line. *)
Lemma saved_sequence_reads_back_witness :
  exists w1 w2,
    save_all (fun lit => lit) [margalla_record; f9_record] rawal_data
    = Ok (tt, w1)
    /\ load_observations (fun lit => lit) w1
       = Ok (map (row_map as_read)
               [rawal_record; margalla_record; f9_record], w2)
    /\ obs_body w2 = Some [rawal_record; margalla_record; f9_record]
    /\ kb_listing w2 = None.
Proof.
  apply (saved_sequence_reads_back (fun lit => lit)
           [margalla_record; f9_record] (DataDir (Some [rawal_record]) None)).
  - repeat constructor.
  - repeat constructor.
  - repeat constructor.
  - repeat constructor.
Defined.

(** A file with a line whose species name is a marker of a missing
    value. *)
Lemma load_reads_line_by_line_witness :
  exists df,
    load_observations (fun lit => lit)
      (Some (DataDir (Some [rawal_record; na_species_record]) None))
    = Ok (df, Some (DataDir (Some [rawal_record; na_species_record]) None))
    /\ length df = 2
    /\ forall i line,
         nth_error [rawal_record; na_species_record] i = Some line ->
         exists r,
           nth_error df i = Some r
           /\ Forall2 read_as (fields line) (fields r).
Proof.
  apply (load_reads_line_by_line (fun lit => lit)
           (DataDir (Some [rawal_record; na_species_record]) None)
           [rawal_record; na_species_record]).
  - reflexivity.
  - repeat constructor.
Defined.

Lemma save_rewrites_earlier_lines_witness :
  exists w1 body1 line1,
    save_observation (fun lit => lit) margalla_record
      (Some (DataDir (Some [rawal_record; na_species_record]) None))
    = Ok (tt, w1)
    /\ obs_body w1 = Some body1
    /\ nth_error body1 1 = Some line1
    /\ Forall2 rewritten_as (fields na_species_record) (fields line1).
Proof.
  apply (save_rewrites_earlier_lines (fun lit => lit) margalla_record
           (DataDir (Some [rawal_record; na_species_record]) None)
           [rawal_record; na_species_record] 1 na_species_record).
  - reflexivity.
  - repeat constructor.
  - repeat constructor.
  - reflexivity.
  - reflexivity.
Defined.

(** ** The query: case, longer queries, concatenation *)

Lemma lower_char_idempotent (c : ascii) :
  Py.lower_char (Py.lower_char c) = Py.lower_char c.
Proof. destruct c as [[] [] [] [] [] [] [] []]; reflexivity. Qed.

Lemma lower_idempotent (s : string) : Py.lower (Py.lower s) = Py.lower s.
Proof.
  induction s as [|c s IH]; simpl; [reflexivity |].
  now rewrite lower_char_idempotent, IH.
Qed.

Lemma lower_app (a b : string) : Py.lower (a ++ b) = Py.lower a ++ Py.lower b.
Proof. induction a as [|c a IH]; simpl; [reflexivity | now rewrite IH]. Qed.

Lemma occurs_in_lower (q s : string) :
  occurs_in q s -> occurs_in (Py.lower q) (Py.lower s).
Proof.
  intros (before & after & ->). exists (Py.lower before), (Py.lower after).
  now rewrite !lower_app.
Qed.

Lemma occurs_in_trans (a b c : string) :
  occurs_in a b -> occurs_in b c -> occurs_in a c.
Proof.
  intros (x & y & ->) (u & v & ->). exists (u ++ x), (y ++ v).
  now rewrite !string_app_assoc.
Qed.

Lemma contains_trans (a b c : string) :
  occurs_in a b -> Py.contains b c = true -> Py.contains a c = true.
Proof.
  intros Hab Hbc. apply contains_iff. apply contains_iff in Hbc.
  now apply (occurs_in_trans a b c).
Qed.

(** X7: the query is compared without regard to case: two queries with the
    same lowered text, and in particular a query and its lowered text, give
    the same kbHits and the same obsHits. *)
Theorem query_ignores_case (query other : string) (obs_df : dataframe)
    (kb : list string) :
  Py.lower other = Py.lower query ->
  simple_rag_query other obs_df kb = simple_rag_query query obs_df kb
  /\ simple_rag_query (Py.lower query) obs_df kb
     = simple_rag_query query obs_df kb.
Proof.
  intros H. unfold simple_rag_query.
  now rewrite H, lower_idempotent.
Qed.

Lemma query_ignores_case_witness :
  simple_rag_query "RAWAL" [rawal_row; no_notes_row] []
  = simple_rag_query "Rawal" [rawal_row; no_notes_row] []
  /\ simple_rag_query (Py.lower "Rawal") [rawal_row; no_notes_row] []
     = simple_rag_query "Rawal" [rawal_row; no_notes_row] [].
Proof.
  apply (query_ignores_case "Rawal" "RAWAL"). reflexivity.
Defined.

Lemma is_ascii_app (a b : string) :
  is_ascii (a ++ b) = is_ascii a && is_ascii b.
Proof.
  unfold is_ascii. induction a as [|c a IH]; simpl; [reflexivity |].
  now rewrite IH, andb_assoc.
Qed.

Lemma is_ascii_part (part s : string) :
  occurs_in part s -> is_ascii s = true -> is_ascii part = true.
Proof.
  intros (before & after & ->). rewrite !is_ascii_app, !andb_true_iff. tauto.
Qed.

Lemma utf8_row_matches_shorter (lower : string -> string) (q q' : string)
    (r : row pyval) :
  occurs_in q' q -> Utf8.row_matches lower q r = true ->
  Utf8.row_matches lower q' r = true.
Proof.
  intros H. unfold Utf8.row_matches. rewrite !orb_true_iff.
  intros [[[M | M] | M] | M]; apply (contains_trans q' q) in M; auto.
Qed.

(** X8: whatever [str.lower] does outside ASCII, a query of ASCII
    characters that contains another query as a part of it returns no hit
    that the shorter query does not return, among the snippets and among
    the observations. *)
Theorem longer_query_fewer_hits (lower : string -> string)
    (query part : string) (obs_df : dataframe) (kb : list string) :
  folds_ascii lower ->
  is_ascii query = true ->
  occurs_in part query ->
  incl (fst (Utf8.simple_rag_query lower query obs_df kb))
       (fst (Utf8.simple_rag_query lower part obs_df kb))
  /\ incl (snd (Utf8.simple_rag_query lower query obs_df kb))
          (snd (Utf8.simple_rag_query lower part obs_df kb)).
Proof.
  intros Hfold Hq H.
  assert (occurs_in (lower part) (lower query)) as Hl.
  { rewrite (Hfold query Hq), (Hfold part (is_ascii_part _ _ H Hq)).
    now apply occurs_in_lower. }
  split.
  - unfold Utf8.simple_rag_query; simpl. intros s Hs.
    apply filter_In in Hs as [Hin Hs]. apply filter_In. split; [exact Hin |].
    now apply (contains_trans _ (lower query)).
  - rewrite !utf8_obs_hits_filter. intros r Hr.
    apply filter_In in Hr as [Hin Hr]. apply filter_In. split; [exact Hin |].
    now apply (utf8_row_matches_shorter lower (lower query)).
Qed.

Lemma longer_query_fewer_hits_witness :
  incl (fst (Utf8.simple_rag_query lower_latin "great tit"
               [rawal_row; emu_row]
               ["Great Tit is common in Margalla Hills"; "Émeu is a bird"]))
       (fst (Utf8.simple_rag_query lower_latin "tit" [rawal_row; emu_row]
               ["Great Tit is common in Margalla Hills"; "Émeu is a bird"]))
  /\ incl (snd (Utf8.simple_rag_query lower_latin "great tit"
                  [rawal_row; emu_row]
                  ["Great Tit is common in Margalla Hills"; "Émeu is a bird"]))
          (snd (Utf8.simple_rag_query lower_latin "tit" [rawal_row; emu_row]
                  ["Great Tit is common in Margalla Hills"; "Émeu is a bird"])).
Proof.
  apply (longer_query_fewer_hits lower_latin "great tit" "tit").
  - exact lower_latin_ascii.
  - reflexivity.
  - exists "great ", "". reflexivity.
Defined.

(** X10: every query whose lowered text is a part of "nan" (such as "a",
    "N", "na", "an") returns each observation in which species_name,
    common_name, notes or location is missing. *)
Theorem nan_fragments_match_missing_fields (query : string)
    (obs_df : dataframe) (kb : list string) (r : row pyval)
    (field : row pyval -> pyval) :
  occurs_in (Py.lower query) "nan" ->
  In r obs_df -> In field SEARCHED -> field r = PyNaN ->
  In r (snd (simple_rag_query query obs_df kb)).
Proof.
  intros Hq Hin Hfield Hnan.
  apply (proj2 (obs_hits_exact_aux query obs_df kb) r).
  split; [exact Hin |]. exists field. split; [exact Hfield |].
  now rewrite Hnan.
Qed.

Lemma nan_fragments_match_missing_fields_witness :
  In no_notes_row (snd (simple_rag_query "A" [rawal_row; no_notes_row] [])).
Proof.
  apply (nan_fragments_match_missing_fields "A" [rawal_row; no_notes_row] []
           no_notes_row notes).
  - exists "n", "n". reflexivity.
  - right. left. reflexivity.
  - right. right. left. reflexivity.
  - reflexivity.
Defined.

Lemma filter_empty_iff {A} (f : A -> bool) (l : list A) :
  filter f l = [] <-> forall x, In x l -> f x = false.
Proof.
  induction l as [|a l IH]; simpl.
  - split; [intros _ x [] | reflexivity].
  - destruct (f a) eqn:E.
    + split; [discriminate |].
      intros H. rewrite (H a (or_introl eq_refl)) in E. discriminate.
    + rewrite IH. split.
      * intros H x [<- | Hx]; [exact E | now apply H].
      * intros H x Hx. apply H. now right.
Qed.

Lemma ai_answer_not_found_iff (kb_hits : list string)
    (obs_hits : list (row pyval)) :
  ai_answer kb_hits obs_hits = NOT_FOUND <-> kb_hits = [] /\ obs_hits = [].
Proof.
  split.
  - intros H. destruct kb_hits as [|k kb]; destruct obs_hits as [|o obs];
      [split; reflexivity | | |]; discriminate H.
  - intros [-> ->]. reflexivity.
Qed.

(** X11: whatever [str.lower] does outside ASCII, on a table whose rows
    [iterrows] yields with their values the answer built from the hits of a
    query is the "not found" text exactly when the lowered query occurs in
    no lowered snippet and in none of the four searched fields of any
    observation. *)
Theorem answer_not_found_iff_nothing_matches (lower : string -> string)
    (query : string) (obs_df : dataframe) (kb : list string) :
  keeps_types obs_df ->
  ai_answer (fst (Utf8.simple_rag_query lower query obs_df kb))
            (snd (Utf8.simple_rag_query lower query obs_df kb)) = NOT_FOUND
  <-> (forall s, In s kb -> ~ occurs_in (lower query) (lower s))
      /\ (forall r field,
            In r obs_df -> In field SEARCHED ->
            ~ occurs_in (lower query) (lower (py_str (field r)))).
Proof.
  intros _. rewrite ai_answer_not_found_iff, utf8_obs_hits_filter.
  unfold Utf8.simple_rag_query; simpl. rewrite !filter_empty_iff.
  split.
  - intros [Hk Ho]. split.
    + intros s Hs Hocc. apply contains_iff in Hocc.
      rewrite (Hk s Hs) in Hocc. discriminate.
    + intros r field Hr Hf Hocc.
      assert (Utf8.row_matches lower (lower query) r = true) as M
          by (apply utf8_row_matches_iff; now exists field).
      rewrite (Ho r Hr) in M. discriminate.
  - intros [Hk Ho]. split.
    + intros s Hs. apply not_true_iff_false. intros M.
      apply contains_iff in M. now apply (Hk s Hs).
    + intros r Hr. apply not_true_iff_false. intros M.
      apply utf8_row_matches_iff in M as (field & Hf & Hocc).
      now apply (Ho r field Hr Hf).
Qed.

(** The query "xyzzy-nonexistent" on two observations and two snippets. *)
Lemma answer_not_found_iff_nothing_matches_witness :
  ai_answer
    (fst (Utf8.simple_rag_query lower_latin "xyzzy-nonexistent"
            [rawal_row; emu_row]
            ["Great Tit is common in Margalla Hills"; "Émeu is a bird"]))
    (snd (Utf8.simple_rag_query lower_latin "xyzzy-nonexistent"
            [rawal_row; emu_row]
            ["Great Tit is common in Margalla Hills"; "Émeu is a bird"]))
  = NOT_FOUND
  /\ (forall s,
        In s ["Great Tit is common in Margalla Hills"; "Émeu is a bird"] ->
        ~ occurs_in (lower_latin "xyzzy-nonexistent") (lower_latin s))
  /\ (forall r field,
        In r [rawal_row; emu_row] -> In field SEARCHED ->
        ~ occurs_in (lower_latin "xyzzy-nonexistent")
            (lower_latin (py_str (field r)))).
Proof.
  split; [reflexivity |].
  apply (answer_not_found_iff_nothing_matches lower_latin "xyzzy-nonexistent"
           [rawal_row; emu_row]
           ["Great Tit is common in Margalla Hills"; "Émeu is a bird"]).
  - right. exists rawal_row, species_name, "Parus major".
    split; [now left |]. split; [right; now left | reflexivity].
  - reflexivity.
Defined.

(** ** The knowledge base: which entries are read, when it fails *)

Lemma substring_all (s : string) : substring 0 (String.length s) s = s.
Proof. induction s as [|c s IH]; simpl; [reflexivity | now rewrite IH]. Qed.

Lemma substring_after (a p : string) :
  substring (String.length a) (String.length p) (a ++ p) = p.
Proof. induction a as [|c a IH]; simpl; [apply substring_all | exact IH]. Qed.

Lemma string_app_length (a b : string) :
  String.length (a ++ b) = String.length a + String.length b.
Proof. induction a as [|c a IH]; simpl; [reflexivity | now rewrite IH]. Qed.

Lemma substring_split (n : nat) (s : string) :
  n <= String.length s ->
  s = substring 0 n s ++ substring n (String.length s - n) s.
Proof.
  revert s. induction n as [|n IH]; intros s Hn.
  - rewrite Nat.sub_0_r, substring_all. now destruct s.
  - destruct s as [|c s]; [inversion Hn |].
    simpl in Hn. apply le_S_n in Hn. simpl. now rewrite <- IH.
Qed.

Lemma endswith_iff (p s : string) :
  Py.endswith p s = true <-> exists stem, s = stem ++ p.
Proof.
  unfold Py.endswith. rewrite andb_true_iff, Nat.leb_le, String.eqb_eq.
  split.
  - intros [Hlen Hsub].
    exists (substring 0 (String.length s - String.length p) s).
    pose proof (substring_split (String.length s - String.length p) s
                  (Nat.le_sub_l _ _)) as E.
    replace (String.length s - (String.length s - String.length p))
      with (String.length p) in E by lia.
    now rewrite Hsub in E.
  - intros [stem ->]. rewrite string_app_length. split.
    + apply Nat.le_add_l.
    + rewrite Nat.add_sub. apply substring_after.
Qed.

Lemma matches_txt_iff (name : string) :
  matches_txt name = true
  <-> (exists stem, name = stem ++ ".txt")
      /\ Py.startswith "." name = false.
Proof.
  unfold matches_txt.
  rewrite andb_true_iff, negb_true_iff, endswith_iff. tauto.
Qed.

Lemma kb_loop_raise (entries : list (string * node)) (e : exn) :
  kb_loop entries (Raise e) = Raise e.
Proof. induction entries as [|x l IH]; [reflexivity | exact IH]. Qed.

Lemma kb_loop_files (entries : list (string * node))
    (texts acc : list string) :
  map snd entries = map File texts ->
  kb_loop entries (Ok acc) = Ok (acc ++ texts)%list.
Proof.
  revert texts acc. induction entries as [|[name n] l IH]; intros texts acc H.
  - destruct texts; [| discriminate]. now rewrite app_nil_r.
  - destruct texts as [|t texts]; [discriminate |].
    simpl in H. injection H as -> H.
    change (kb_loop l (Ok (acc ++ [t])%list) = Ok (acc ++ t :: texts)%list).
    rewrite (IH texts _ H). now rewrite <- app_assoc.
Qed.

Lemma kb_loop_app (a b : list (string * node))
    (start : result (list string)) :
  kb_loop (a ++ b)%list start = kb_loop b (kb_loop a start).
Proof. apply fold_left_app. Qed.

(** The loop stops at the first matched entry that cannot be read. *)
Lemma kb_loop_failure (before after : list (string * node)) (name : string)
    (n : node) (texts acc : list string) (e : exn) :
  map snd before = map File texts ->
  read_text n = Raise e ->
  kb_loop (before ++ (name, n) :: after)%list (Ok acc) = Raise e.
Proof.
  intros Hb Hn. rewrite kb_loop_app, (kb_loop_files _ texts acc Hb).
  change (kb_loop ((name, n) :: after) (Ok (acc ++ texts)%list))
    with (kb_loop after
            match read_text (snd (name, n)) with
            | Ok text => Ok ((acc ++ texts) ++ [text])%list
            | Raise x => Raise x
            end).
  simpl snd. rewrite Hn. apply kb_loop_raise.
Qed.

Lemma files_or_failure (entries : list (string * node)) :
  (exists texts, map snd entries = map File texts)
  \/ exists before name n after texts e,
       entries = (before ++ (name, n) :: after)%list
       /\ map snd before = map File texts
       /\ read_text n = Raise e.
Proof.
  induction entries as [|[name n] l IH].
  - left. now exists [].
  - destruct n as [t | | e].
    + destruct IH as [[texts IH] | (before & name' & n' & after & texts & e
                                    & -> & Hb & Hn)].
      * left. exists (t :: texts). simpl. now rewrite IH.
      * right. exists ((name, File t) :: before), name', n', after,
          (t :: texts), e.
        split; [reflexivity |]. split; [simpl; now rewrite Hb | exact Hn].
    + right. exists [], name, Directory, l, [], IsADirectoryError.
      now repeat split.
    + right. exists [], name, (Unreadable e), l, [], e. now repeat split.
Qed.

(** X12: [get_kb_snippets] returns a list exactly when every entry of the
    knowledge-base directory that the pattern matches is a file that can be
    read, and the list is then the texts of these files in the order of the
    listing.  The matched entries are those of the listing whose name ends
    in ".txt" and does not start with a dot; no other entry is read. *)
Theorem kb_snippets_are_the_txt_files (w : world) :
  (forall texts,
      get_kb_snippets w = Ok texts
      <-> map snd (glob_kb_txt w) = map File texts)
  /\ (forall name n,
        In (name, n) (glob_kb_txt w)
        <-> exists entries,
              kb_listing w = Some entries
              /\ In (name, n) entries
              /\ (exists stem, name = stem ++ ".txt")
              /\ Py.startswith "." name = false).
Proof.
  split.
  - intros texts.
    change (get_kb_snippets w) with (kb_loop (glob_kb_txt w) (Ok [])).
    split.
    + intros H. destruct (files_or_failure (glob_kb_txt w))
        as [[texts' Hf] | (before & name & n & after & texts' & e
                           & Heq & Hb & Hn)].
      * rewrite (kb_loop_files _ texts' [] Hf) in H. simpl in H.
        injection H as <-. exact Hf.
      * rewrite Heq, (kb_loop_failure _ _ name n texts' [] e Hb Hn) in H.
        discriminate.
    + intros H. now rewrite (kb_loop_files _ texts [] H).
  - intros name n. unfold glob_kb_txt, kb_listing.
    destruct w as [d|].
    + destruct (kb_snippets d) as [entries|].
      * rewrite filter_In. simpl fst. rewrite matches_txt_iff. split.
        -- intros [Hin Hm]. now exists entries.
        -- intros (entries' & Heq & Hin & Hm). injection Heq as <-. tauto.
      * split; [intros [] | intros (entries & Heq & _); discriminate].
    + split; [intros [] | intros (entries & Heq & _); discriminate].
Qed.

(** X13: [get_kb_snippets] raises exactly what [open] or [read] raise on
    the first matched entry that cannot be read ([IsADirectoryError] for a
    directory, [UnicodeDecodeError] for a file that is not UTF-8, ...), the
    matched entries before it being files that are read; it raises nothing
    else. *)
Theorem kb_fails_on_first_unreadable_entry (w : world) (e : exn) :
  get_kb_snippets w = Raise e
  <-> exists before name n after texts,
        glob_kb_txt w = (before ++ (name, n) :: after)%list
        /\ map snd before = map File texts
        /\ read_text n = Raise e.
Proof.
  change (get_kb_snippets w) with (kb_loop (glob_kb_txt w) (Ok [])).
  split.
  - intros H. destruct (files_or_failure (glob_kb_txt w))
      as [[texts Hf] | (before & name & n & after & texts & e'
                        & Heq & Hb & Hn)].
    + rewrite (kb_loop_files _ texts [] Hf) in H. discriminate.
    + rewrite Heq, (kb_loop_failure _ _ name n texts [] e' Hb Hn) in H.
      injection H as <-. now exists before, name, n, after, texts.
  - intros (before & name & n & after & texts & -> & Hb & Hn).
    now apply (kb_loop_failure _ _ name n texts).
Qed.

(** ** The top observer in general *)

Lemma same_true_iff (a b : pyval) : Pandas.same a b = true <-> a = b.
Proof.
  unfold Pandas.same. destruct (pyval_eq_dec a b); split; congruence.
Qed.

Lemma in_unique (x : pyval) (l : list pyval) :
  In x (Pandas.unique l) <-> In x l.
Proof.
  induction l as [|a l IH]; simpl; [reflexivity |].
  rewrite filter_In, IH. split.
  - intros [H | [H _]]; auto.
  - intros [H | H]; [now left |].
    destruct (pyval_eq_dec a x) as [E | E]; [now left | right].
    split; [exact H |]. apply negb_true_iff.
    destruct (Pandas.same a x) eqn:S; [| reflexivity].
    apply same_true_iff in S. contradiction.
Qed.

Lemma in_insert_desc (x y : pyval * nat) (l : list (pyval * nat)) :
  In x (Pandas.insert_desc y l) <-> x = y \/ In x l.
Proof.
  induction l as [|a l IH]; simpl.
  - split; intros [H | H]; auto.
  - destruct (snd a <=? snd y)%nat; simpl.
    + split; intros [H | H]; auto.
    + rewrite IH. tauto.
Qed.

Lemma in_sorted_counts (x : pyval * nat) (l : list (pyval * nat)) :
  In x (fold_right Pandas.insert_desc [] l) <-> In x l.
Proof.
  induction l as [|a l IH]; simpl; [reflexivity |].
  rewrite in_insert_desc, IH. split; intros [H | H]; auto.
Qed.

Lemma in_value_counts (v : pyval) (n : nat) (series : list pyval) :
  In (v, n) (Pandas.value_counts series)
  <-> v <> PyNaN /\ In v series /\ n = count_occ pyval_eq_dec series v.
Proof.
  unfold Pandas.value_counts. rewrite in_sorted_counts, in_map_iff.
  assert (forall u, u <> PyNaN ->
            count_occ pyval_eq_dec
              (filter (fun v => negb (Pandas.same v PyNaN)) series) u
            = count_occ pyval_eq_dec series u) as Hcount.
  { intros u Hu. induction series as [|a l IH]; simpl; [reflexivity |].
    destruct (Pandas.same a PyNaN) eqn:S; simpl.
    - apply same_true_iff in S. subst a.
      destruct (pyval_eq_dec PyNaN u); [congruence | exact IH].
    - destruct (pyval_eq_dec a u); now rewrite IH. }
  assert (forall u, In u (filter (fun v => negb (Pandas.same v PyNaN)) series)
                    <-> u <> PyNaN /\ In u series) as Hin.
  { intros u. rewrite filter_In, negb_true_iff. split.
    - intros [H S]. split; [| exact H]. intros ->.
      now rewrite (proj2 (same_true_iff PyNaN PyNaN) eq_refl) in S.
    - intros [Hu H]. split; [exact H |].
      destruct (Pandas.same u PyNaN) eqn:S; [| reflexivity].
      apply same_true_iff in S. contradiction. }
  split.
  - intros (u & Heq & Hu). injection Heq as -> <-.
    apply in_unique, Hin in Hu. destruct Hu as [Hu Hs].
    now rewrite Hcount.
  - intros (Hv & Hs & ->). exists v. split.
    + now rewrite Hcount.
    + apply in_unique, Hin. now split.
Qed.

Lemma idxmax_ok (counts : list (pyval * nat)) (v : pyval) :
  Pandas.idxmax counts = Ok v ->
  exists n, In (v, n) counts /\ forall e, In e counts -> snd e <= n.
Proof.
  induction counts as [|[u m] rest IH]; simpl; [discriminate |].
  destruct (forallb (fun e => (snd e <=? m)%nat) rest) eqn:F.
  - intros H. injection H as <-. exists m. split; [now left |].
    intros e [<- | He]; [apply Nat.le_refl |].
    rewrite forallb_forall in F. apply Nat.leb_le. now apply F.
  - intros H. destruct (IH H) as (n & Hin & Hmax).
    exists n. split; [now right |].
    intros e [<- | He]; [| now apply Hmax].
    simpl. destruct (Nat.le_gt_cases m n) as [Hle | Hgt]; [exact Hle |].
    assert (forallb (fun e => (snd e <=? m)%nat) rest = true) as F'.
    { apply forallb_forall. intros e He. apply Nat.leb_le.
      apply Nat.le_trans with n; [now apply Hmax | now apply Nat.lt_le_incl]. }
    rewrite F' in F. discriminate.
Qed.

Lemma idxmax_raise (counts : list (pyval * nat)) (e : exn) :
  Pandas.idxmax counts = Raise e <-> counts = [] /\ e = ValueError.
Proof.
  split.
  - induction counts as [|[u m] rest IH]; simpl.
    + intros H. injection H as <-. now split.
    + destruct (forallb (fun e => (snd e <=? m)%nat) rest) eqn:F;
        [discriminate |].
      intros H. destruct (IH H) as [-> _]. discriminate.
  - intros [-> ->]. reflexivity.
Qed.

Lemma top_observer_raises (obs_df : dataframe) (e : exn) :
  obs_df <> [] ->
  get_top_observer obs_df = Raise e
  <-> e = ValueError /\ forall r, In r obs_df -> submitted_by r = PyNaN.
Proof.
  intros Hne.
  assert (get_top_observer obs_df
          = Pandas.idxmax (Pandas.value_counts (map submitted_by obs_df)))
    as -> by (destruct obs_df; [contradiction | reflexivity]).
  rewrite idxmax_raise. split.
  - intros [Hnil ->]. split; [reflexivity |].
    intros r Hr.
    destruct (pyval_eq_dec (submitted_by r) PyNaN) as [E | E]; [exact E |].
    assert (In (submitted_by r,
                count_occ pyval_eq_dec (map submitted_by obs_df)
                  (submitted_by r))
               (Pandas.value_counts (map submitted_by obs_df))) as Hin.
    { apply in_value_counts. split; [exact E |].
      split; [now apply in_map | reflexivity]. }
    rewrite Hnil in Hin. contradiction.
  - intros [-> Hall]. split; [| reflexivity].
    destruct (Pandas.value_counts (map submitted_by obs_df))
      as [|[v n] rest] eqn:E; [reflexivity |].
    assert (In (v, n) (Pandas.value_counts (map submitted_by obs_df)))
      as Hin by (rewrite E; now left).
    apply in_value_counts in Hin as (Hv & Hs & _).
    apply in_map_iff in Hs as (r & <- & Hr).
    now rewrite (Hall r Hr) in Hv.
Qed.

(** X14: on a table that is not empty, a name returned by
    [get_top_observer] is a value of the submitted_by column that is not
    missing, and no other such value occurs more often; the function raises
    exactly when every submitted_by of the table is missing, and then it is
    [ValueError] from [idxmax]. *)
Theorem top_observer_is_most_frequent (obs_df : dataframe) :
  obs_df <> [] ->
  (forall v,
      get_top_observer obs_df = Ok v ->
      v <> PyNaN
      /\ In v (map submitted_by obs_df)
      /\ forall u, u <> PyNaN ->
           count_occ pyval_eq_dec (map submitted_by obs_df) u
           <= count_occ pyval_eq_dec (map submitted_by obs_df) v)
  /\ (forall e,
        get_top_observer obs_df = Raise e
        <-> e = ValueError
            /\ forall r, In r obs_df -> submitted_by r = PyNaN).
Proof.
  intros Hne. split; [| intros e; now apply top_observer_raises].
  assert (get_top_observer obs_df
          = Pandas.idxmax (Pandas.value_counts (map submitted_by obs_df)))
    as -> by (destruct obs_df; [contradiction | reflexivity]).
  intros v H. apply idxmax_ok in H as (n & Hin & Hmax).
  apply in_value_counts in Hin as (Hv & Hs & ->).
  split; [exact Hv |]. split; [exact Hs |].
  intros u Hu.
  destruct (in_dec pyval_eq_dec u (map submitted_by obs_df)) as [Hi | Hi].
  - apply (Hmax (u, count_occ pyval_eq_dec (map submitted_by obs_df) u)).
    apply in_value_counts. now repeat split.
  - apply (count_occ_not_In pyval_eq_dec) in Hi. rewrite Hi.
    apply Nat.le_0_l.
Qed.

Lemma top_observer_is_most_frequent_witness :
  (forall v,
      get_top_observer [rawal_row; no_notes_row; rawal_row] = Ok v ->
      v <> PyNaN
      /\ In v (map submitted_by [rawal_row; no_notes_row; rawal_row])
      /\ forall u, u <> PyNaN ->
           count_occ pyval_eq_dec
             (map submitted_by [rawal_row; no_notes_row; rawal_row]) u
           <= count_occ pyval_eq_dec
                (map submitted_by [rawal_row; no_notes_row; rawal_row]) v)
  /\ (forall e,
        get_top_observer [rawal_row; no_notes_row; rawal_row] = Raise e
        <-> e = ValueError
            /\ forall r, In r [rawal_row; no_notes_row; rawal_row] ->
                         submitted_by r = PyNaN).
Proof.
  apply (top_observer_is_most_frequent [rawal_row; no_notes_row; rawal_row]).
  discriminate.
Defined.

(** ** The pages: asking a question, showing the observations *)

Lemma glob_of_listing (w : world) :
  glob_kb_txt w
  = match kb_listing w with
    | Some entries => filter (fun e => matches_txt (fst e)) entries
    | None => []
    end.
Proof. destruct w as [d|]; reflexivity. Qed.

Lemma kb_of_listing (w w' : world) :
  kb_listing w = kb_listing w' -> get_kb_snippets w = get_kb_snippets w'.
Proof.
  intros H. unfold get_kb_snippets. now rewrite !glob_of_listing, H.
Qed.

Section PagesMore.

Variable float_repr : string -> string.

Lemma ask_ai_outcome (query : string) (w : world) :
  ask_ai float_repr query w
  = match w with
    | None => Raise OSError
    | Some d =>
        match get_kb_snippets w with
        | Ok kb =>
            Ok (qa_page query (Pandas.read_csv float_repr (lines_of w)) kb,
                Some (DataDir (Some (lines_of w)) (kb_snippets d)))
        | Raise e => Raise e
        end
    end.
Proof.
  pose proof (load_outcome float_repr w) as Hl.
  unfold ask_ai, bind. destruct w as [d|]; rewrite Hl; [| reflexivity].
  unfold reading.
  rewrite (kb_of_listing (Some (DataDir (Some (lines_of (Some d)))
                                        (kb_snippets d)))
             (Some d) eq_refl).
  destruct (get_kb_snippets (Some d)); reflexivity.
Qed.

(** X15: when [observations.csv] holds a table under the eight-column
    header, pressing "Ask AI" raises exactly what [get_kb_snippets] raises
    (X13): neither reading the observations nor the search nor building the
    page adds a failure, and a failure of [get_kb_snippets] is not caught.
    Without the directory [data] it raises [OSError], from [to_csv] in
    [load_observations]. *)
Theorem ask_ai_failures (query : string) (w : world) (body : csv) (e : exn) :
  obs_body w = Some body ->
  (ask_ai float_repr query w = Raise e <-> get_kb_snippets w = Raise e)
  /\ ask_ai float_repr query None = Raise OSError.
Proof.
  intros Hw. split; [| reflexivity].
  rewrite ask_ai_outcome. destruct w as [d|]; [| discriminate Hw].
  destruct (get_kb_snippets (Some d)) as [kb | x].
  - split; discriminate.
  - split; intros H; injection H as <-; reflexivity.
Qed.

(** X16: when "Ask AI" returns a page, the lines of [observations.csv] are
    the lines it had before (the file is created with no line when it was
    absent) and the knowledge-base directory is as it was. *)
Theorem ask_ai_changes_no_data (query : string) (w w1 : world)
    (page : list widget) :
  ask_ai float_repr query w = Ok (page, w1) ->
  obs_body w1 = Some (lines_of w) /\ kb_listing w1 = kb_listing w.
Proof.
  rewrite ask_ai_outcome. destruct w as [d|]; [| discriminate].
  destruct (get_kb_snippets (Some d)); [| discriminate].
  intros H. injection H as _ <-. now split.
Qed.

(** X17: on a store without observations whose knowledge base has no
    matching entry, "Ask AI" shows for every question, the empty one
    included, the two "no match" notes and the "not found" answer. *)
Theorem ask_ai_on_empty_data (query : string) (d : data_dir) :
  lines_of (Some d) = [] ->
  glob_kb_txt (Some d) = [] ->
  ask_ai float_repr query (Some d)
  = Ok (NOTHING_FOUND_PAGE, Some (DataDir (Some []) (kb_snippets d))).
Proof.
  intros Hl Hg. rewrite ask_ai_outcome. unfold get_kb_snippets.
  rewrite Hg, Hl. reflexivity.
Qed.

Lemma read_csv_nil_iff (body : csv) :
  Pandas.read_csv float_repr body = [] <-> body = [].
Proof.
  split; [| now intros ->].
  intros H. apply (f_equal (@length _)) in H.
  rewrite read_csv_length in H. now destruct body.
Qed.

Lemma na_not_wide (tok : string) :
  Pandas.is_na tok = true -> wide tok = false.
Proof.
  unfold Pandas.is_na, Pandas.NA_VALUES. cbn [existsb].
  intros H.
  repeat (apply orb_true_iff in H as [H | H];
          [apply String.eqb_eq in H; subst tok; reflexivity |]).
  discriminate H.
Qed.

Lemma read_csv_names_missing (body : csv) :
  (forall r, In r (Pandas.read_csv float_repr body) -> submitted_by r = PyNaN)
  <-> forall line, In line body -> Pandas.is_na (submitted_by line) = true.
Proof.
  unfold Pandas.read_csv. split.
  - intros H line Hin.
    apply (convert_nan_only float_repr
             (Pandas.infer (map submitted_by body))).
    apply (H _ (in_map _ body line Hin)).
  - intros H r Hr. apply in_map_iff in Hr as (line & <- & Hin).
    cbn [submitted_by]. apply convert_na; [| now apply H].
    apply infer_narrow. intros tok Htok.
    apply in_map_iff in Htok as (line' & <- & Hin').
    apply na_not_wide. now apply H.
Qed.

Lemma show_observations_outcome (w : world) :
  show_observations float_repr w
  = match w with
    | None => Raise OSError
    | Some d =>
        let obs_df := Pandas.read_csv float_repr (lines_of w) in
        let w1 := Some (DataDir (Some (lines_of w)) (kb_snippets d)) in
        if non_empty obs_df then
          match get_top_observer obs_df with
          | Ok top =>
              Ok ([Markdown ("🏆 *Top Observer:* " ++ py_str top);
                   Dataframe (map shown_columns obs_df)], w1)
          | Raise e => Raise e
          end
        else Ok ([Info NO_OBSERVATIONS], w1)
    end.
Proof.
  pose proof (load_outcome float_repr w) as Hl.
  unfold show_observations, bind. destruct w as [d|]; rewrite Hl;
    [| reflexivity].
  cbv zeta.
  destruct (non_empty (Pandas.read_csv float_repr (lines_of (Some d))));
    [| reflexivity].
  unfold returning, reading.
  destruct (get_top_observer _); reflexivity.
Qed.

(** X18: when [observations.csv] holds a table under the eight-column
    header, the list of observations raises exactly when the table has
    lines and the submitted_by of every line is a marker of a missing value
    (a name such as None, NA or null), and then [ValueError], from
    [get_top_observer]; it shows "No observations yet" exactly when the
    table has no line. *)
Theorem show_observations_outcomes (w : world) (body : csv) :
  obs_body w = Some body ->
  (forall e,
      show_observations float_repr w = Raise e
      <-> e = ValueError /\ body <> []
          /\ forall line, In line body ->
               Pandas.is_na (submitted_by line) = true)
  /\ ((exists w1,
         show_observations float_repr w = Ok ([Info NO_OBSERVATIONS], w1))
      <-> body = []).
Proof.
  intros Hw. rewrite show_observations_outcome.
  destruct w as [d|]; [| discriminate Hw]. cbv zeta.
  assert (lines_of (Some d) = body) as ->
      by (unfold lines_of; now rewrite Hw).
  pose proof (read_csv_nil_iff body) as Hnil.
  pose proof (read_csv_names_missing body) as Hnames.
  destruct (Pandas.read_csv float_repr body) as [|r df] eqn:E.
  - simpl non_empty. cbv iota.
    assert (body = []) as L by now apply Hnil.
    split.
    + intros e. split; [discriminate |].
      intros (_ & H & _). contradiction.
    + split; [intros _; exact L | intros _; eauto].
  - simpl non_empty. cbv iota.
    assert (body <> []) as L
        by (intros L; apply Hnil in L; discriminate).
    pose proof (fun e => top_observer_raises (r :: df) e
                           ltac:(discriminate)) as Ht.
    split.
    + intros e. destruct (get_top_observer (r :: df)) as [v | x] eqn:T.
      * split; [discriminate |].
        intros (-> & _ & Hall).
        pose proof (proj2 (Ht ValueError)
                      (conj eq_refl (proj2 Hnames Hall))) as C.
        discriminate C.
      * destruct (proj1 (Ht x) eq_refl) as [-> Hall]. split.
        -- intros H. injection H as <-.
           split; [reflexivity |].
           split; [exact L | exact (proj1 Hnames Hall)].
        -- intros (-> & _). reflexivity.
    + split.
      * intros [w1 H]. destruct (get_top_observer (r :: df));
          discriminate.
      * intros H. contradiction.
Qed.

End PagesMore.

(** ** Texts that are never taken for a number or a missing value *)

Ltac ascii_cases c := destruct c as [[] [] [] [] [] [] [] []].

Lemma blank_not_dash (c : ascii) :
  Py.is_blank c = true -> Ascii.eqb c "-" = false.
Proof. ascii_cases c; intros H; first [reflexivity | discriminate H]. Qed.

Lemma digit_not_dash (c : ascii) (d : Z) :
  Pandas.digit_of c = Some d -> Ascii.eqb c "-" = false.
Proof. ascii_cases c; intros H; first [reflexivity | discriminate H]. Qed.

Lemma lower_char_dash (c : ascii) :
  Ascii.eqb (Py.lower_char c) "-" = Ascii.eqb c "-".
Proof. ascii_cases c; reflexivity. Qed.

Lemma dashes_app (a b : string) : dashes (a ++ b) = dashes a + dashes b.
Proof.
  induction a as [|c a IH]; simpl; [reflexivity |]. rewrite IH. lia.
Qed.

Lemma dashes_lower (s : string) : dashes (Py.lower s) = dashes s.
Proof.
  induction s as [|c s IH]; simpl; [reflexivity |].
  now rewrite lower_char_dash, IH.
Qed.

Lemma dashes_lstrip (s : string) : dashes (Py.lstrip s) = dashes s.
Proof.
  induction s as [|c s IH]; simpl; [reflexivity |].
  destruct (Py.is_blank c) eqn:B; [| reflexivity].
  now rewrite IH, (blank_not_dash c B).
Qed.

Lemma dashes_rstrip (s : string) : dashes (Py.rstrip s) = dashes s.
Proof.
  induction s as [|c s IH]; simpl; [reflexivity |].
  destruct (Py.rstrip s) as [|x t] eqn:E.
  - simpl in IH. rewrite <- IH.
    destruct (Py.is_blank c) eqn:B; simpl; [| reflexivity].
    now rewrite (blank_not_dash c B).
  - rewrite <- IH. reflexivity.
Qed.

Lemma dashes_strip (s : string) : dashes (Py.strip s) = dashes s.
Proof. unfold Py.strip. now rewrite dashes_rstrip, dashes_lstrip. Qed.

Lemma dashes_drop_sign (s : string) :
  dashes s <= S (dashes (Pandas.drop_sign s)).
Proof.
  destruct s as [|c r]; [simpl; lia |].
  ascii_cases c; simpl; lia.
Qed.

Lemma dashes_skip_digits (s : string) :
  dashes (snd (Pandas.skip_digits s)) = dashes s.
Proof.
  induction s as [|c s IH]; simpl; [reflexivity |].
  destruct (Pandas.digit_of c) as [d|] eqn:D; [| reflexivity].
  destruct (Pandas.skip_digits s) as [n r]. simpl in *.
  now rewrite IH, (digit_not_dash c d D).
Qed.

Lemma digits_value_no_dash (s : string) (acc z : Z) :
  Pandas.digits_value acc s = Some z -> dashes s = 0.
Proof.
  revert acc. induction s as [|c s IH]; intros acc; simpl; [reflexivity |].
  destruct (Pandas.digit_of c) as [d|] eqn:D; [| discriminate].
  intros H. now rewrite (digit_not_dash c d D), (IH _ H).
Qed.

Lemma unsigned_literal_no_dash (s : string) (z : Z) :
  Pandas.unsigned_literal s = Some z -> dashes s = 0.
Proof.
  destruct s as [|c s]; [discriminate |].
  apply digits_value_no_dash.
Qed.

Lemma is_na_dashes (tok : string) :
  Pandas.is_na tok = true -> dashes tok <= 1.
Proof.
  unfold Pandas.is_na. rewrite existsb_exists.
  intros (x & Hin & Heq). apply String.eqb_eq in Heq. subst x.
  simpl in Hin.
  repeat (destruct Hin as [<- | Hin]; [simpl; lia |]).
  contradiction.
Qed.

Lemma bool_literal_dashes (tok : string) (b : bool) :
  Pandas.bool_literal tok = Some b -> dashes tok = 0.
Proof.
  unfold Pandas.bool_literal. rewrite <- dashes_lower.
  destruct (String.eqb_spec (Py.lower tok) "true") as [-> | _];
    [reflexivity |].
  destruct (String.eqb_spec (Py.lower tok) "false") as [-> | _];
    [reflexivity | discriminate].
Qed.

Lemma int_literal_dashes (tok : string) :
  2 <= dashes tok -> Pandas.int_literal tok = None.
Proof.
  intros H. rewrite <- dashes_strip in H. unfold Pandas.int_literal.
  destruct (Py.strip tok) as [|c ds]; [reflexivity |].
  assert (forall s, 1 <= dashes s -> Pandas.unsigned_literal s = None) as U.
  { intros s Hs. destruct (Pandas.unsigned_literal s) eqn:E; [| reflexivity].
    apply unsigned_literal_no_dash in E. lia. }
  ascii_cases c; simpl in H; try (apply U; simpl; lia);
    rewrite (U ds) by lia; reflexivity.
Qed.

Lemma after_point_dashes (r1 : string) :
  dashes (snd (match r1 with
               | String "."%char r => Pandas.skip_digits r
               | _ => (0, r1)
               end)) = dashes r1.
Proof.
  destruct r1 as [|c r]; [reflexivity |].
  ascii_cases c; try reflexivity.
  rewrite dashes_skip_digits. reflexivity.
Qed.

Lemma float_digits_dashes (body : string) :
  2 <= dashes body -> Pandas.float_digits body = false.
Proof.
  intros H. unfold Pandas.float_digits.
  pose proof (dashes_skip_digits body) as D1.
  destruct (Pandas.skip_digits body) as [n1 r1]. simpl in D1.
  pose proof (after_point_dashes r1) as D2.
  destruct (match r1 with
            | String "."%char r => Pandas.skip_digits r
            | _ => (0, r1)
            end) as [n2 r2].
  simpl in D2.
  destruct r2 as [|c r]; [simpl in D2; lia |].
  destruct (Ascii.eqb c "e" || Ascii.eqb c "E") eqn:EE;
    [| now rewrite andb_false_r].
  assert (Ascii.eqb c "-" = false) as Hc.
  { apply orb_true_iff in EE. rewrite !Ascii.eqb_eq in EE.
    destruct EE as [-> | ->]; reflexivity. }
  simpl in D2. rewrite Hc in D2. simpl in D2.
  pose proof (dashes_drop_sign r) as D3.
  pose proof (dashes_skip_digits (Pandas.drop_sign r)) as D4.
  destruct (Pandas.skip_digits (Pandas.drop_sign r)) as [n3 r3].
  simpl in D4. destruct r3 as [|x r3]; [simpl in D4; lia |].
  simpl. now rewrite !andb_false_r.
Qed.

Lemma float_literal_dashes (tok : string) :
  1 <= dashes (Pandas.drop_sign tok) ->
  2 <= dashes (Pandas.drop_sign (Py.strip tok)) ->
  Pandas.float_literal tok = false.
Proof.
  intros H1 H2. unfold Pandas.float_literal. cbv zeta.
  rewrite (float_digits_dashes _ H2), orb_false_r.
  apply orb_false_iff.
  split; apply String.eqb_neq; intros I; apply (f_equal dashes) in I;
    rewrite dashes_lower in I; simpl in I; lia.
Qed.

(** A text with three dashes or more is plain. *)
Lemma plain_of_dashes (tok : string) : 3 <= dashes tok -> plain tok = true.
Proof.
  intros H. unfold plain.
  destruct (Pandas.is_na tok) eqn:Na;
    [apply is_na_dashes in Na; lia |].
  rewrite int_literal_dashes by lia.
  rewrite float_literal_dashes.
  - destruct (Pandas.bool_literal tok) eqn:B; [| reflexivity].
    apply bool_literal_dashes in B. lia.
  - pose proof (dashes_drop_sign tok) as D. lia.
  - pose proof (dashes_drop_sign (Py.strip tok)) as D.
    rewrite dashes_strip in D. lia.
Qed.

Lemma hex_char_not_dash (n : N) : Ascii.eqb (hex_char n) "-" = false.
Proof.
  unfold hex_char. generalize (N.to_nat (n mod 16)). intros i.
  do 16 (destruct i as [|i]; [reflexivity |]).
  destruct i; reflexivity.
Qed.

Lemma dashes_hex (digits : nat) (n : N) : dashes (hex digits n) = 0.
Proof.
  revert n. induction digits as [|k IH]; intros n; simpl; [reflexivity |].
  rewrite dashes_app, IH. simpl. now rewrite hex_char_not_dash.
Qed.

Lemma dashes_uuid_str (u : uuid) : dashes (uuid_str u) = 4.
Proof.
  unfold uuid_str. rewrite !dashes_app, !dashes_hex. reflexivity.
Qed.

Lemma plain_uuid_str (u : uuid) : plain (uuid_str u) = true.
Proof. apply plain_of_dashes. rewrite dashes_uuid_str. lia. Qed.

Lemma plain_image_path (u : uuid) :
  plain ("data/images" ++ "/" ++ uuid_str u ++ ".jpg") = true.
Proof.
  apply plain_of_dashes. rewrite !dashes_app, dashes_uuid_str. simpl. lia.
Qed.

Lemma digit_char_is_digit (n : nat) :
  exists d, Pandas.digit_of (digit_char n) = Some d.
Proof.
  unfold digit_char. pose proof (Nat.mod_upper_bound n 10) as B.
  destruct (n mod 10) as [|[|[|[|[|[|[|[|[|[|k]]]]]]]]]];
    try (eexists; reflexivity).
  lia.
Qed.

Lemma digit_first (c : ascii) (d : Z) (t : string) :
  Pandas.digit_of c = Some d ->
  Py.is_blank c = false /\ Pandas.drop_sign (String c t) = String c t.
Proof. ascii_cases c; intros H; first [now split | discriminate H]. Qed.

Lemma rstrip_first (c : ascii) (s : string) :
  Py.is_blank c = false -> exists t, Py.rstrip (String c s) = String c t.
Proof.
  intros B. cbn [Py.rstrip]. destruct (Py.rstrip s) as [|x t].
  - rewrite B. now exists "".
  - now exists (String x t).
Qed.

Lemma digit_char_not_dash (n : nat) : Ascii.eqb (digit_char n) "-" = false.
Proof.
  destruct (digit_char_is_digit n) as [z Hz]. now apply (digit_not_dash _ z).
Qed.

Lemma dashes_date_str (d : date) : dashes (date_str d) = 2.
Proof.
  unfold date_str. rewrite !dashes_app. cbn [dashes].
  rewrite !digit_char_not_dash. reflexivity.
Qed.

Lemma strip_digit_first (c : ascii) (d : Z) (s : string) :
  Pandas.digit_of c = Some d ->
  dashes (Pandas.drop_sign (Py.strip (String c s))) = dashes (String c s).
Proof.
  intros H. destruct (digit_first c d s H) as [B _].
  unfold Py.strip. cbn [Py.lstrip]. rewrite B.
  destruct (rstrip_first c s B) as [t Ht].
  pose proof (dashes_rstrip (String c s)) as R. rewrite Ht in *.
  now rewrite (proj2 (digit_first c d t H)).
Qed.

Lemma plain_date_str (d : date) : plain (date_str d) = true.
Proof.
  pose proof (dashes_date_str d) as D2. unfold plain.
  destruct (Pandas.is_na (date_str d)) eqn:Na;
    [apply is_na_dashes in Na; lia |].
  rewrite int_literal_dashes by lia.
  rewrite float_literal_dashes.
  - destruct (Pandas.bool_literal (date_str d)) eqn:B; [| reflexivity].
    apply bool_literal_dashes in B. lia.
  - destruct (digit_char_is_digit (year d / 1000)) as [z Hz].
    unfold date_str in *. cbn [append] in *.
    rewrite (proj2 (digit_first _ z _ Hz)). lia.
  - destruct (digit_char_is_digit (year d / 1000)) as [z Hz].
    unfold date_str in *. cbn [append] in *.
    rewrite (strip_digit_first _ z _ Hz). lia.
Qed.

(** ** Submitting an observation *)

Lemma put_file_in (name content : string)
    (l : list (string * image_entry)) :
  In (name, Image content) (put_file name content l).
Proof.
  induction l as [|[n c] l IH]; simpl; [now left |].
  destruct (String.eqb n name); [now left | now right].
Qed.

Lemma put_file_keeps (name content n : string) (entry : image_entry)
    (l : list (string * image_entry)) :
  n <> name -> In (n, entry) l -> In (n, entry) (put_file name content l).
Proof.
  intros Hne. induction l as [|[n' c'] l IH]; simpl; [contradiction |].
  intros [H | H].
  - injection H as -> ->.
    destruct (String.eqb_spec n name); [contradiction | now left].
  - destruct (String.eqb n' name); right; [exact H | now apply IH].
Qed.

Ltac last_line :=
  rewrite map_app; apply in_or_app; right; left; reflexivity.

Section SubmissionMore.

Variable float_repr : string -> string.

Lemma save_on_disk (r : record) (dk : disk) :
  on_files (save_observation float_repr r) dk
  = match dk with
    | Data d images =>
        Ok (tt,
            Data (DataDir
                    (Some (Pandas.to_csv
                             (Pandas.read_csv float_repr
                                (lines_of (Some d))) ++ [r])%list)
                    (kb_snippets d))
                 images)
    | _ => Raise OSError
    end.
Proof.
  unfold on_files. destruct dk as [| |d images]; try reflexivity.
  simpl files_of. now rewrite (save_outcome float_repr r (Some d)).
Qed.

Lemma submit_outcome (img_id obs_id : uuid) (species common : string)
    (day_seen : date) (place : string) (image_file : option string)
    (note name : string) (dk : disk) :
  submit_observation float_repr img_id obs_id species common day_seen place
    image_file note name dk
  = match with_image img_id image_file dk with
    | Ok dk0 =>
        match on_files
                (save_observation float_repr
                   (submitted_line img_id obs_id species common day_seen
                      place image_file note name))
                dk0 with
        | Ok (_, dk1) => Ok (SUBMITTED_PAGE, dk1)
        | Raise e => Raise e
        end
    | Raise e => Raise e
    end.
Proof.
  unfold submit_observation, with_image, dbind.
  destruct image_file as [content|]; [| reflexivity].
  destruct (makedirs_images dk) as [[[] dk1] | e]; [| reflexivity].
  destruct (write_image (uuid_str img_id ++ ".jpg") content dk1)
    as [[[] dk2] | e]; reflexivity.
Qed.


Lemma with_image_spec (img_id : uuid) (image_file : option string)
    (dk dk0 : disk) :
  with_image img_id image_file dk = Ok dk0 ->
  lines_of (files_of dk0) = lines_of (files_of dk)
  /\ kb_listing (files_of dk0) = kb_listing (files_of dk)
  /\ match image_file with
     | Some content =>
         exists images,
           images_of dk0 = Some images
           /\ In (uuid_str img_id ++ ".jpg", Image content) images
           /\ forall old n entry,
                images_of dk = Some old -> In (n, entry) old ->
                n <> uuid_str img_id ++ ".jpg" -> In (n, entry) images
     | None => images_of dk0 = images_of dk
     end.
Proof.
  unfold with_image.
  destruct image_file as [content|];
    [| intros H; injection H as <-; now repeat split].
  destruct dk as [| |d [|listing|]]; cbn [makedirs_images write_image];
    try discriminate.
  - cbn [lookup_image put_file].
    intros H. injection H as <-. split; [reflexivity |].
    split; [reflexivity |].
    exists [(uuid_str img_id ++ ".jpg", Image content)].
    split; [reflexivity |]. split; [now left |].
    intros old n entry Hold. discriminate Hold.
  - cbn [lookup_image put_file].
    intros H. injection H as <-. split; [reflexivity |].
    split; [reflexivity |].
    exists [(uuid_str img_id ++ ".jpg", Image content)].
    split; [reflexivity |]. split; [now left |].
    intros old n entry Hold. discriminate Hold.
  - intros H.
    assert (dk0 = Data d (ImagesDir (put_file (uuid_str img_id ++ ".jpg")
                                       content listing))) as ->.
    { destruct (lookup_image (uuid_str img_id ++ ".jpg") listing) as [[|]|];
        first [discriminate H | now injection H]. }
    split; [reflexivity |]. split; [reflexivity |].
    eexists. split; [reflexivity |]. split; [apply put_file_in |].
    intros old n entry Hold Hin Hne. injection Hold as <-.
    now apply put_file_keeps.
Qed.

Lemma submission_lines (img_id obs_id : uuid) (species common : string)
    (day_seen : date) (place : string) (image_file : option string)
    (note name : string) (dk dk1 : disk) (page : list widget) :
  submit_observation float_repr img_id obs_id species common day_seen place
    image_file note name dk = Ok (page, dk1) ->
  exists dk0 d1 earlier,
    with_image img_id image_file dk = Ok dk0
    /\ page = SUBMITTED_PAGE
    /\ files_of dk1 = Some d1
    /\ observations_csv d1
       = Some (earlier
               ++ [submitted_line img_id obs_id species common day_seen
                     place image_file note name])%list
    /\ length earlier = length (lines_of (files_of dk))
    /\ kb_snippets d1 = kb_listing (files_of dk)
    /\ images_of dk1 = images_of dk0.
Proof.
  rewrite submit_outcome.
  destruct (with_image img_id image_file dk) as [dk0|] eqn:W;
    [| discriminate].
  rewrite save_on_disk.
  destruct (with_image_spec _ _ _ _ W) as (Hl & Hk & _).
  destruct dk0 as [| |d0 images0]; try discriminate.
  intros H. injection H as <- <-.
  exists (Data d0 images0). eexists. eexists.
  split; [reflexivity |]. split; [reflexivity |]. split; [reflexivity |].
  split; [reflexivity |].
  split; [now rewrite to_csv_length, read_csv_length, <- Hl |].
  split; [exact Hk | reflexivity].
Qed.

(** X20: a submission that returns shows the same page whatever was
    entered, adds to [observations.csv] one last line made of the new
    identifier, the texts of the form, the date as text, the path of the
    stored image or the empty text, and the name or "Anonymous" when the
    name was left empty; the file keeps one line per earlier line and the
    knowledge base is untouched.  An uploaded image is then in
    [data/images] under the name of its UUID, the other entries are still
    there; without an upload [data/images] is as it was.  (Neither the
    texts entered nor the lines of the file hold a carriage return or
    another control character that [to_csv] writes unquoted.) *)
Theorem submission_writes (img_id obs_id : uuid) (species common : string)
    (day_seen : date) (place : string) (image_file : option string)
    (note name : string) (dk dk1 : disk) (page : list widget) :
  Forall clean_line (lines_of (files_of dk)) ->
  forallb clean [species; common; place; note; name] = true ->
  submit_observation float_repr img_id obs_id species common day_seen place
    image_file note name dk = Ok (page, dk1) ->
  page = SUBMITTED_PAGE
  /\ (exists earlier,
        obs_body (files_of dk1)
        = Some (earlier
                ++ [submitted_line img_id obs_id species common day_seen
                      place image_file note name])%list
        /\ length earlier = length (lines_of (files_of dk)))
  /\ kb_listing (files_of dk1) = kb_listing (files_of dk)
  /\ match image_file with
     | Some content =>
         exists images,
           images_of dk1 = Some images
           /\ In (uuid_str img_id ++ ".jpg", Image content) images
           /\ forall old n entry,
                images_of dk = Some old -> In (n, entry) old ->
                n <> uuid_str img_id ++ ".jpg" -> In (n, entry) images
     | None => images_of dk1 = images_of dk
     end.
Proof.
  intros _ _ H.
  destruct (submission_lines _ _ _ _ _ _ _ _ _ _ _ _ H)
    as (dk0 & d1 & earlier & W & Hp & Hd & Hbody & Hlen & Hkb & Hi).
  destruct (with_image_spec _ _ _ _ W) as (_ & _ & Himg).
  split; [exact Hp |]. rewrite Hd, Hi. split; [| split].
  - exists earlier. split; [exact Hbody | exact Hlen].
  - exact Hkb.
  - exact Himg.
Qed.

(** X21: after a submission that returns, [load_observations] returns a
    table whose last row has, as texts, the identifier drawn for the
    observation and the date entered; its image_url is the path of the
    stored image, or [nan] when none was uploaded; its submitted_by is
    "Anonymous" when the name was left empty; and the texts typed in the
    form are read as [read_as] says (the same text when it is plain, [nan]
    exactly when it is a marker of a missing value).  (The file then holds
    no integer outside the range of int64, and neither the texts entered
    nor the lines of the file before hold a carriage return or another
    control character that [to_csv] writes unquoted.) *)
Theorem submission_reads_back (img_id obs_id : uuid)
    (species common : string) (day_seen : date) (place : string)
    (image_file : option string) (note name : string) (dk dk1 : disk)
    (page : list widget) :
  Forall clean_line (lines_of (files_of dk)) ->
  forallb clean [species; common; place; note; name] = true ->
  submit_observation float_repr img_id obs_id species common day_seen place
    image_file note name dk = Ok (page, dk1) ->
  Forall narrow_line (lines_of (files_of dk1)) ->
  exists df r,
    load_observations float_repr (files_of dk1) = Ok (df, files_of dk1)
    /\ last_row df = Some r
    /\ observation_id r = PyStr (uuid_str obs_id)
    /\ date_observed r = PyStr (date_str day_seen)
    /\ image_url r
       = match image_file with
         | Some _ => PyStr ("data/images/" ++ uuid_str img_id ++ ".jpg")
         | None => PyNaN
         end
    /\ (name = "" -> submitted_by r = PyStr "Anonymous")
    /\ read_as species (species_name r)
    /\ read_as common (common_name r)
    /\ read_as place (location r)
    /\ read_as note (notes r)
    /\ read_as (if String.eqb name "" then "Anonymous" else name)
               (submitted_by r).
Proof.
  intros _ _ H Hn.
  destruct (submission_lines _ _ _ _ _ _ _ _ _ _ _ _ H)
    as (dk0 & d1 & earlier & _ & _ & Hd & Hbody & _).
  rewrite Hd in *. unfold lines_of, obs_body in Hn. rewrite Hbody in Hn.
  eexists. eexists.
  split; [apply (load_present float_repr d1 _ Hbody) |].
  unfold Pandas.read_csv. rewrite last_row_map_app.
  split; [reflexivity |].
  unfold submitted_line.
  cbn [observation_id date_observed image_url submitted_by species_name
       common_name location notes].
  split; [apply convert_plain; [last_line | apply plain_uuid_str] |].
  split; [apply convert_plain; [last_line | apply plain_date_str] |].
  split.
  { destruct image_file as [content|].
    - apply convert_plain; [last_line | apply (plain_image_path img_id)].
    - apply convert_na; [| reflexivity]. apply infer_narrow.
      apply (narrow_column _ _ Hn). a_column. }
  split.
  { intros ->. apply convert_plain; [last_line | reflexivity]. }
  repeat (split;
          [apply convert_read_as;
           [apply (narrow_column _ _ Hn); a_column | last_line] |]).
  apply convert_read_as; [apply (narrow_column _ _ Hn); a_column | last_line].
Qed.

End SubmissionMore.

(** X22: after a submission that returns, when the name entered (or
    "Anonymous" for an empty name) is not a marker of a missing value, the
    list of observations is shown: a top observer and a table with one row
    per earlier line and one for the submission.  It is never the note "No
    observations yet".  (Neither the texts entered nor the lines of the
    file hold a carriage return or another control character that [to_csv]
    writes unquoted.) *)
Theorem page_after_submission (float_repr : string -> string)
    (img_id obs_id : uuid) (species common : string) (day_seen : date)
    (place : string) (image_file : option string) (note name : string)
    (dk dk1 : disk) (page : list widget) :
  Forall clean_line (lines_of (files_of dk)) ->
  forallb clean [species; common; place; note; name] = true ->
  submit_observation float_repr img_id obs_id species common day_seen place
    image_file note name dk = Ok (page, dk1) ->
  Pandas.is_na (if String.eqb name "" then "Anonymous" else name) = false ->
  exists top rows,
    show_observations float_repr (files_of dk1)
    = Ok ([Markdown ("🏆 *Top Observer:* " ++ py_str top); Dataframe rows],
          files_of dk1)
    /\ length rows = S (length (lines_of (files_of dk))).
Proof.
  intros _ _ H Hname.
  destruct (submission_lines float_repr _ _ _ _ _ _ _ _ _ _ _ _ H)
    as (dk0 & d1 & earlier & _ & _ & Hd & Hbody & Hlen & _).
  rewrite show_observations_outcome, Hd. cbv zeta.
  assert (lines_of (Some d1)
          = (earlier
             ++ [submitted_line img_id obs_id species common day_seen place
                   image_file note name])%list) as L
      by (unfold lines_of, obs_body; now rewrite Hbody).
  rewrite L.
  set (body := (earlier ++ [_])%list).
  destruct (Pandas.read_csv float_repr body) as [|r df] eqn:E.
  - apply (f_equal (@length _)) in E. rewrite read_csv_length in E.
    unfold body in E. rewrite length_app in E. simpl in E. lia.
  - simpl non_empty. cbv iota.
    destruct (get_top_observer (r :: df)) as [top | e] eqn:T.
    + exists top. eexists. split.
      * destruct d1 as [csv0 kb0]. simpl in Hbody. subst csv0.
        fold body. reflexivity.
      * rewrite length_map, <- E, read_csv_length. unfold body.
        rewrite length_app. simpl. lia.
    + apply top_observer_raises in T as [_ Hall]; [| discriminate].
      rewrite <- E in Hall.
      pose proof (proj1 (read_csv_names_missing float_repr body) Hall) as N.
      specialize (N (submitted_line img_id obs_id species common day_seen
                       place image_file note name)).
      assert (Pandas.is_na
                (if String.eqb name "" then "Anonymous" else name) = true)
        as C by (apply N; unfold body; apply in_or_app; right; now left).
      rewrite C in Hname. discriminate.
Qed.

(** A submission with an image into a store that holds a line, a snippet
    and an image. *)
Lemma submission_writes_witness :
  exists page dk1,
    page = SUBMITTED_PAGE
    /\ (exists earlier,
          obs_body (files_of dk1)
          = Some (earlier
                  ++ [submitted_line 1%N 2%N "Panthera pardus" "Leopard"
                        (Date 2024 5 2) "Margalla Hills Trail 3"
                        (Some "JFIF") "crossing the trail" ""])%list
          /\ length earlier = length (lines_of (files_of busy_disk)))
    /\ kb_listing (files_of dk1) = kb_listing (files_of busy_disk)
    /\ exists images,
         images_of dk1 = Some images
         /\ In (uuid_str 1%N ++ ".jpg", Image "JFIF") images
         /\ forall old n entry,
              images_of busy_disk = Some old -> In (n, entry) old ->
              n <> uuid_str 1%N ++ ".jpg" -> In (n, entry) images.
Proof.
  eexists. eexists.
  apply (submission_writes (fun lit => lit) 1%N 2%N "Panthera pardus"
           "Leopard" (Date 2024 5 2) "Margalla Hills Trail 3" (Some "JFIF")
           "crossing the trail" "" busy_disk).
  - repeat constructor.
  - reflexivity.
  - cbv. reflexivity.
Defined.

(** A submission without an image, with NA typed as the species and a
    number as the notes, into the same store. *)
Lemma submission_reads_back_witness :
  exists dk1 df r,
    load_observations (fun lit => lit) (files_of dk1) = Ok (df, files_of dk1)
    /\ last_row df = Some r
    /\ observation_id r = PyStr (uuid_str 2%N)
    /\ date_observed r = PyStr (date_str (Date 2024 5 2))
    /\ image_url r = PyNaN
    /\ ("" = "" -> submitted_by r = PyStr "Anonymous")
    /\ read_as "NA" (species_name r)
    /\ read_as "Leopard" (common_name r)
    /\ read_as "Margalla Hills Trail 3" (location r)
    /\ read_as "42" (notes r)
    /\ read_as "Anonymous" (submitted_by r).
Proof.
  eexists.
  eapply (submission_reads_back (fun lit => lit) 1%N 2%N "NA" "Leopard"
            (Date 2024 5 2) "Margalla Hills Trail 3" None "42" ""
            busy_disk _ SUBMITTED_PAGE).
  - repeat constructor.
  - reflexivity.
  - cbv. reflexivity.
  - cbn [files_of lines_of obs_body observations_csv].
    repeat (apply Forall_cons; [reflexivity |]). apply Forall_nil.
Defined.

Lemma page_after_submission_witness :
  exists dk1 top rows,
    show_observations (fun lit => lit) (files_of dk1)
    = Ok ([Markdown ("🏆 *Top Observer:* " ++ py_str top); Dataframe rows],
          files_of dk1)
    /\ length rows = S (length (lines_of (files_of busy_disk))).
Proof.
  eexists.
  eapply (page_after_submission (fun lit => lit) 1%N 2%N "Panthera pardus"
            "Leopard" (Date 2024 5 2) "Margalla Hills Trail 3" (Some "JFIF")
            "crossing the trail" "" busy_disk _ SUBMITTED_PAGE).
  - repeat constructor.
  - reflexivity.
  - cbv. reflexivity.
  - reflexivity.
Defined.

(** A knowledge base whose second matched entry is not UTF-8. *)
Lemma ask_ai_failures_witness :
  (ask_ai (fun lit => lit) "great tit" (Some (DataDir (Some [rawal_record])
                                                (Some mixed_kb)))
   = Raise UnicodeDecodeError
   <-> get_kb_snippets (Some (DataDir (Some [rawal_record]) (Some mixed_kb)))
       = Raise UnicodeDecodeError)
  /\ ask_ai (fun lit => lit) "great tit" None = Raise OSError.
Proof.
  apply (ask_ai_failures (fun lit => lit) "great tit"
           (Some (DataDir (Some [rawal_record]) (Some mixed_kb)))
           [rawal_record] UnicodeDecodeError).
  reflexivity.
Defined.

(** A question on a store that holds a line and two snippets. *)
Lemma ask_ai_changes_no_data_witness :
  exists w1,
    obs_body w1 = Some (lines_of (files_of busy_disk))
    /\ kb_listing w1 = kb_listing (files_of busy_disk).
Proof.
  eexists.
  eapply (ask_ai_changes_no_data (fun lit => lit) "rawal"
            (files_of busy_disk)).
  cbv. reflexivity.
Defined.

(** A store whose only line was submitted under the name None. *)
Lemma show_observations_outcomes_witness :
  show_observations (fun lit => lit)
    (Some (DataDir (Some [none_record]) None))
  = Raise ValueError.
Proof.
  apply (proj1 (show_observations_outcomes (fun lit => lit)
                  (Some (DataDir (Some [none_record]) None))
                  [none_record] eq_refl) ValueError).
  split; [reflexivity |]. split; [discriminate |].
  intros line [<- | []]. reflexivity.
Defined.

Lemma ask_ai_on_empty_data_witness :
  ask_ai (fun lit => lit) ""
    (Some (DataDir None (Some [("readme.md", File "x")])))
  = Ok (NOTHING_FOUND_PAGE,
        Some (DataDir (Some []) (Some [("readme.md", File "x")]))).
Proof.
  apply (ask_ai_on_empty_data (fun lit => lit) ""
           (DataDir None (Some [("readme.md", File "x")]))).
  - reflexivity.
  - reflexivity.
Defined.

(** ** The model on sample data *)

Example lower_demo : Py.lower "Rawal Lake" = "rawal lake".
Proof. reflexivity. Qed.

Example read_csv_demo (float_repr : string -> string) :
  Pandas.read_csv float_repr
    [Row "1" "7" "NA" "True" "Rawal Lake" "" "x" "Ali";
     Row "2" "" "n/a" "False" "42" "" "1" "Sara"]
  = [Row (PyInt 1) (PyFloat (float_repr "7")) PyNaN (PyBool true)
         (PyStr "Rawal Lake") PyNaN (PyStr "x") (PyStr "Ali");
     Row (PyInt 2) PyNaN PyNaN (PyBool false) (PyStr "42")
         PyNaN (PyStr "1") (PyStr "Sara")].
Proof. reflexivity. Qed.

Example get_kb_snippets_demo :
  get_kb_snippets
    (Some (DataDir None
             (Some [("birds.txt", File "Great Tit is common in Margalla Hills");
                    ("notes.md", File "not a snippet");
                    (".hidden.txt", File "skipped by the pattern");
                    ("cats.txt", File "Leopards live in the hills")])))
  = Ok ["Great Tit is common in Margalla Hills"; "Leopards live in the hills"].
Proof. reflexivity. Qed.

Example get_kb_snippets_directory_demo :
  get_kb_snippets (Some (DataDir None (Some [("old.txt", Directory)])))
  = Raise IsADirectoryError.
Proof. reflexivity. Qed.

Example simple_rag_query_demo :
  simple_rag_query "RAWAL" [no_notes_row; rawal_row]
    ["Great Tit is common in Margalla Hills"]
  = ([], [rawal_row]).
Proof. reflexivity. Qed.

Example ai_answer_demo :
  ai_answer ["Great Tit is common in Margalla Hills" ++ LF ++ "More text"]
    [rawal_row]
  = FOUND_HEADER ++ "• Great Tit is common in Margalla Hills" ++ LF
    ++ "• Parus major observed at Rawal Lake (2024-05-01)".
Proof. reflexivity. Qed.

Example submit_observation_demo :
  submit_observation (fun lit => lit) 1%N
    (0x550e8400e29b41d4a716446655440000)%N "Parus major" "Great Tit"
    (Date 2024 5 1) "Rawal Lake" (Some "JFIF") "singing" "" NoData
  = Ok (SUBMITTED_PAGE,
        Data (DataDir
                (Some [Row "550e8400-e29b-41d4-a716-446655440000"
                           "Parus major" "Great Tit" "2024-05-01"
                           "Rawal Lake"
                           "data/images/00000000-0000-0000-0000-000000000001.jpg"
                           "singing" "Anonymous"])
                None)
             (ImagesDir
                [("00000000-0000-0000-0000-000000000001.jpg", Image "JFIF")])).
Proof. reflexivity. Qed.

Example get_kb_snippets_not_utf8_demo :
  get_kb_snippets (Some (DataDir None (Some mixed_kb)))
  = Raise UnicodeDecodeError.
Proof. reflexivity. Qed.

Example read_csv_wide_integer_demo (float_repr : string -> string) :
  Pandas.read_csv float_repr
    [Row "1" "a" "b" "c" "d" "" "99999999999999999999" "Ali";
     Row "2" "a" "b" "c" "d" "" "" "true"]
  = [Row (PyInt 1) (PyStr "a") (PyStr "b") (PyStr "c") (PyStr "d") PyNaN
         (PyStr "99999999999999999999") (PyStr "Ali");
     Row (PyInt 2) (PyStr "a") (PyStr "b") (PyStr "c") (PyStr "d") PyNaN
         (PyStr "") (PyStr "true")].
Proof. reflexivity. Qed.

Example name_none_breaks_the_list_demo :
  show_observations (fun lit => lit)
    (Some (DataDir
             (Some [Row "550e8400-e29b-41d4-a716-446655440000" "Parus major"
                        "Great Tit" "2024-05-01" "Rawal Lake" "" "singing"
                        "None"])
             None))
  = Raise ValueError.
Proof. reflexivity. Qed.

Example top_observer_all_missing_demo :
  get_top_observer [Row PyNaN PyNaN PyNaN PyNaN PyNaN PyNaN PyNaN PyNaN]
  = Raise ValueError.
Proof. reflexivity. Qed.
